(** * Token query compiler: [src/QueryBuilder/typeQueries/tokenQuery.ts]

    A shallow embedding of [tokenQuery], the function that turns a parsed
    FHIR token search value into an ElasticSearch query fragment, and the
    properties of its field selection and of its composition of clauses.

    Conventions of the embedding:
    - optional properties ([system?], [code?], [modifier?],
      [explicitNoSystemProperty?]) are [option]s, [None] being [undefined];
      JavaScript truthiness is written out ([truthy], [truthyFlag]);
    - [tokenDataTypesMap], imported from a JSON file, is an argument: a
      finite map from resource type to a finite map from path to the list of
      [{ code }] objects, these being the own properties of the parsed
      objects.  The operator [in] also finds the properties an object
      inherits from [Object.prototype] ([OBJECT_PROTOTYPE_KEYS]); what such
      a property holds is never an array, and [forEach] on it throws a
      [TypeError] ([forEachThrows]).  The built-in values behind those
      properties differ between engines, so their property names are a
      parameter ([Realm]);
    - an array that is only ever pushed to is a list, [push] appending at
      its end;
    - the object literals the function returns are the constructors of
      [Query]; a thrown error is the [Throw] result. *)

From Stdlib Require Import String List Bool Arith Lia.
From stdpp Require Import base option list strings gmap.


(** ** Data model *)

(** [CompiledSearchParam], as far as [tokenQuery] reads it. *)
Record CompiledSearchParam : Type := {
  resourceType : string;
  path : string
}.

(** [TokenSearchValue]: [{ system?, code?, explicitNoSystemProperty? }]. *)
Record TokenSearchValue : Type := {
  system : option string;
  code : option string;
  explicitNoSystemProperty : option bool
}.

(** One element of a type table entry: [{ code: string }]. *)
Module DataType.
Record t : Type := { code : string }.
End DataType.

(** The shape of [tokenDataTypesMap.json]. *)
Abbreviation TypeMap := (gmap string (gmap string (list DataType.t))).

(** The fragments [tokenQuery] builds:
    [{ multi_match: { fields, query, lenient } }],
    [{ bool: { must_not: { exists: { field } } } }] and
    [{ bool: { must: queries } }]. *)
#[warnings="-register-all"]
Inductive Query : Type :=
| MultiMatch (fields : list string) (query : string) (lenient : bool)
| BoolMustNotExists (field : string)
| BoolMust (must : list Query).

(** The errors the function can end with: the one it throws itself, and
    the [TypeError] the engine throws at [dataTypes.forEach] (line 55) when
    [dataTypes] is not an array. *)
Inductive Error : Type :=
| InvalidSearchParameterError (message : string)
| TypeError.

Inductive Result : Type :=
| Return (q : Query)
| Throw (e : Error).

(** ** JavaScript primitives used by the function *)

(** Truthiness of an optional string: [undefined] and [''] are falsy. *)
Definition truthy (s : option string) : bool :=
  match s with
  | Some s => negb (String.eqb s "")
  | None => false
  end.

(** Truthiness of an optional boolean. *)
Definition truthyFlag (b : option bool) : bool :=
  match b with
  | Some b => b
  | None => false
  end.

(** [x !== undefined]. *)
Definition defined {A : Type} (x : option A) : bool :=
  match x with
  | Some _ => true
  | None => false
  end.

(** [Array.prototype.includes] on an array of strings. *)
Definition includes (l : list string) (x : string) : bool :=
  existsb (String.eqb x) l.

(** [Array.prototype.push]. *)
Definition push {A : Type} (arr : list A) (items : list A) : list A :=
  arr ++ items.

(** The string-keyed properties of [Object.prototype] (ECMAScript, Annex B
    included), which every object of the parsed table inherits. *)
Definition OBJECT_PROTOTYPE_KEYS : list string :=
  ["constructor"; "hasOwnProperty"; "isPrototypeOf"; "propertyIsEnumerable";
   "toLocaleString"; "toString"; "valueOf"; "__proto__";
   "__defineGetter__"; "__defineSetter__"; "__lookupGetter__";
   "__lookupSetter__"].

(** [key in obj], for an object of the table: an own key, or a key
    inherited from [Object.prototype]. *)
Definition hasKey {V : Type} (key : string) (obj : gmap string V) : bool :=
  bool_decide (is_Some (obj !! key)) || includes OBJECT_PROTOTYPE_KEYS key.

(** What the engine provides and the function does not control:
    [builtinHas k p] is [p in Object.prototype[k]], for a property name [k]
    of [Object.prototype]: whether the built-in value behind [k] has a
    property [p], own or inherited. *)
Record Realm : Type := {
  builtinHas : string -> string -> bool
}.

(** The properties every function has, own or from [Function.prototype],
    besides those of [Object.prototype]. *)
Definition FUNCTION_KEYS : list string :=
  ["length"; "name"; "apply"; "bind"; "call"; "arguments"; "caller"].

(** The own properties of the [Object] constructor in ECMAScript 2015. *)
Definition OBJECT_CONSTRUCTOR_KEYS : list string :=
  ["prototype"; "assign"; "create"; "defineProperties"; "defineProperty";
   "freeze"; "getOwnPropertyDescriptor"; "getOwnPropertyNames";
   "getOwnPropertySymbols"; "getPrototypeOf"; "is"; "isExtensible";
   "isFrozen"; "isSealed"; "keys"; "preventExtensions"; "seal";
   "setPrototypeOf"].

(** The built-ins of ECMAScript 2015: [__proto__] holds [Object.prototype]
    itself, [constructor] the [Object] constructor, every other name a
    function. *)
Definition es2015 : Realm :=
  {| builtinHas k p :=
       includes OBJECT_PROTOTYPE_KEYS p
       || (negb (String.eqb k "__proto__")
           && (includes FUNCTION_KEYS p
               || (String.eqb k "constructor"
                   && includes OBJECT_CONSTRUCTOR_KEYS p))) |}.

(** ** Constants *)

Definition FIELDS_WITHOUT_KEYWORD : list string := ["id"].
Definition SUPPORTED_MODIFIERS : list string := [].

(** ** Type resolution (lines 44-64) *)

Record TypeFlags : Type := {
  hasIdentifierType : bool;
  hasCodeType : bool;
  hasCodeableConceptType : bool;
  hasIdType : bool;
  hasStringType : bool;
  hasBooleanType : bool;
  hasCodingType : bool;
  hasContactPointType : bool
}.

(** The eight [let has... = false] declarations. *)
Definition noFlags : TypeFlags :=
  {| hasIdentifierType := false; hasCodeType := false;
     hasCodeableConceptType := false; hasIdType := false;
     hasStringType := false; hasBooleanType := false;
     hasCodingType := false; hasContactPointType := false |}.

(** The body of the [forEach] callback. *)
Definition accumulate (f : TypeFlags) (dataType : DataType.t) : TypeFlags :=
  let c := DataType.code dataType in
  {| hasIdentifierType := hasIdentifierType f || String.eqb c "Identifier";
     hasCodeType := hasCodeType f || String.eqb c "code";
     hasCodeableConceptType :=
       hasCodeableConceptType f || String.eqb c "CodeableConcept";
     hasIdType := hasIdType f || String.eqb c "id";
     hasStringType := hasStringType f || String.eqb c "string";
     hasBooleanType := hasBooleanType f || String.eqb c "boolean";
     hasCodingType := hasCodingType f || String.eqb c "Coding";
     hasContactPointType :=
       hasContactPointType f || String.eqb c "ContactPoint" |}.

(** [dataTypes.forEach(...)], from the initial flags. *)
Definition typeFlags (dataTypes : list DataType.t) : TypeFlags :=
  foldl accumulate noFlags dataTypes.

(** The table's own entry for a compiled parameter, if any: the array the
    JSON text gives for the path under the resource type. *)
Definition typeEntry (tokenDataTypesMap : TypeMap)
    (compiled : CompiledSearchParam) : option (list DataType.t) :=
  tokenDataTypesMap !! resourceType compiled
    ≫= fun ofResource => ofResource !! path compiled.

(** Lines 44-45.  When the resource type is not an own key of the table,
    the first test can only succeed on an inherited key, and the second
    test is then made on the built-in value behind it. *)
Definition dataTypeExists (realm : Realm) (tokenDataTypesMap : TypeMap)
    (compiled : CompiledSearchParam) : bool :=
  hasKey (resourceType compiled) tokenDataTypesMap
  && match tokenDataTypesMap !! resourceType compiled with
     | Some ofResource => hasKey (path compiled) ofResource
     | None => builtinHas realm (resourceType compiled) (path compiled)
     end.

(** What [dataTypes] can hold: an array of [{ code }] objects, or a value
    that is not an array and has no [forEach] (a function, a string, a
    number, [null], [Object.prototype]). *)
Inductive JsValue : Type :=
| ArrayOf (elements : list DataType.t)
| NotAnArray.

(** Line 46.  [tokenDataTypesMap[resourceType][path]] is the own entry when
    there is one; otherwise the two tests succeeded on an inherited key and
    the value read is a built-in or one of its properties. *)
Definition dataTypesValue (realm : Realm) (tokenDataTypesMap : TypeMap)
    (compiled : CompiledSearchParam) : JsValue :=
  if dataTypeExists realm tokenDataTypesMap compiled
  then match typeEntry tokenDataTypesMap compiled with
       | Some entry => ArrayOf entry
       | None => NotAnArray
       end
  else ArrayOf [].

(** The elements [dataTypes.forEach] visits: those of the array, and none
    when [dataTypes] is not an array, the call then throwing
    ([forEachThrows]). *)
Definition dataTypes (realm : Realm) (tokenDataTypesMap : TypeMap)
    (compiled : CompiledSearchParam) : list DataType.t :=
  match dataTypesValue realm tokenDataTypesMap compiled with
  | ArrayOf elements => elements
  | NotAnArray => []
  end.

(** Whether the call [dataTypes.forEach(...)] of line 55 throws. *)
Definition forEachThrows (realm : Realm) (tokenDataTypesMap : TypeMap)
    (compiled : CompiledSearchParam) : bool :=
  match dataTypesValue realm tokenDataTypesMap compiled with
  | ArrayOf _ => false
  | NotAnArray => true
  end.

(** ** Suffix policy (lines 30-31) *)

Definition useKeywordSuffix (useKeywordSubFields : bool)
    (compiled : CompiledSearchParam) : bool :=
  useKeywordSubFields && negb (includes FIELDS_WITHOUT_KEYWORD (path compiled)).

Definition keywordSuffix (useKeywordSubFields : bool)
    (compiled : CompiledSearchParam) : string :=
  if useKeywordSuffix useKeywordSubFields compiled then ".keyword" else "".

(** ** Field selection *)

(** The [fields] array of the [system] block (lines 67-90). *)
Definition systemFields (p suffix : string) (exists_ : bool)
    (f : TypeFlags) : list string :=
  let fields := [] in
  if exists_ then
    let fields :=
      if hasIdentifierType f || hasCodingType f
      then push fields [p +:+ ".system" +:+ suffix] else fields in
    let fields :=
      if hasCodeableConceptType f
      then push fields [p +:+ ".coding.system" +:+ suffix] else fields in
    if Nat.eqb (length fields) 0
    then push fields [p +:+ ".system" +:+ suffix;
                      p +:+ ".coding.system" +:+ suffix]
    else fields
  else
    push fields [p +:+ ".system" +:+ suffix;
                 p +:+ ".coding.system" +:+ suffix].

(** The [fields] array of the [code] block (lines 105-157). *)
Definition codeFields (p suffix : string) (useSuffix exists_ : bool)
    (f : TypeFlags) : list string :=
  let fields := [] in
  if exists_ then
    let fields :=
      if hasCodingType f
      then push fields [p +:+ ".code" +:+ suffix] else fields in
    let fields :=
      if hasCodeableConceptType f
      then push fields [p +:+ ".coding.code" +:+ suffix] else fields in
    let fields :=
      if hasIdentifierType f || hasContactPointType f
      then push fields [p +:+ ".value" +:+ suffix] else fields in
    let fields :=
      if hasCodeType f || hasStringType f || hasBooleanType f || hasIdType f
      then
        let fields :=
          if useSuffix && hasBooleanType f
          then push fields [p] else fields in
        push fields [p +:+ suffix]
      else fields in
    if Nat.eqb (length fields) 0
    then push fields [p +:+ ".code" +:+ suffix;
                      p +:+ ".coding.code" +:+ suffix;
                      p +:+ ".value" +:+ suffix;
                      p +:+ suffix]
    else fields
  else
    let fields :=
      push fields [p +:+ ".code" +:+ suffix;
                   p +:+ ".coding.code" +:+ suffix;
                   p +:+ ".value" +:+ suffix;
                   p +:+ suffix] in
    if useSuffix then push fields [p] else fields.

(** The two [fields] arrays, on the values [tokenQuery] computes for a
    compiled parameter. *)
Definition systemFieldsFor (realm : Realm) (tokenDataTypesMap : TypeMap)
    (compiled : CompiledSearchParam) (useKeywordSubFields : bool)
    : list string :=
  systemFields (path compiled)
    (keywordSuffix useKeywordSubFields compiled)
    (dataTypeExists realm tokenDataTypesMap compiled)
    (typeFlags (dataTypes realm tokenDataTypesMap compiled)).

Definition codeFieldsFor (realm : Realm) (tokenDataTypesMap : TypeMap)
    (compiled : CompiledSearchParam) (useKeywordSubFields : bool)
    : list string :=
  codeFields (path compiled)
    (keywordSuffix useKeywordSubFields compiled)
    (useKeywordSuffix useKeywordSubFields compiled)
    (dataTypeExists realm tokenDataTypesMap compiled)
    (typeFlags (dataTypes realm tokenDataTypesMap compiled)).

(** ** The compiler *)

(** The guard of lines 25-27; [Some e] is the error thrown. *)
Definition modifierCheck (modifier : option string) : option Error :=
  match modifier with
  | Some m =>
      if truthy modifier && negb (includes SUPPORTED_MODIFIERS m)
      then Some (InvalidSearchParameterError
                   ("Unsupported token search modifier: " +:+ m))
      else None
  | None => None
  end.

(** The clause of lines 92-98. *)
Definition systemClause (realm : Realm) (tokenDataTypesMap : TypeMap)
    (compiled : CompiledSearchParam) (useKeywordSubFields : bool)
    (system : string) : Query :=
  MultiMatch
    (systemFieldsFor realm tokenDataTypesMap compiled useKeywordSubFields)
    system true.

(** The clause of lines 159-165. *)
Definition codeClause (realm : Realm) (tokenDataTypesMap : TypeMap)
    (compiled : CompiledSearchParam) (useKeywordSubFields : bool)
    (code : string) : Query :=
  MultiMatch
    (codeFieldsFor realm tokenDataTypesMap compiled useKeywordSubFields)
    code true.

(** The clause of lines 169-177. *)
Definition absenceClause (compiled : CompiledSearchParam) : Query :=
  BoolMustNotExists (path compiled +:+ ".system").

(** The [queries] array once the three blocks have run (lines 29-178). *)
Definition queries (realm : Realm) (tokenDataTypesMap : TypeMap)
    (compiled : CompiledSearchParam) (value : TokenSearchValue)
    (useKeywordSubFields : bool) : list Query :=
  let queries := [] in
  let queries :=
    match system value with
    | Some s =>
        push queries [systemClause realm tokenDataTypesMap compiled
                        useKeywordSubFields s]
    | None => queries
    end in
  let queries :=
    match code value with
    | Some c =>
        push queries [codeClause realm tokenDataTypesMap compiled
                        useKeywordSubFields c]
    | None => queries
    end in
  if truthyFlag (explicitNoSystemProperty value)
  then push queries [absenceClause compiled]
  else queries.

(** [tokenQuery]: the modifier guard, the type resolution, whose [forEach]
    throws when [dataTypes] is not an array, then the clauses and their
    composition.  [queries[0]] is read only when the array has length one;
    the composite stands in for a missing element, which the length test
    excludes. *)
Definition tokenQuery (realm : Realm) (tokenDataTypesMap : TypeMap)
    (compiled : CompiledSearchParam) (value : TokenSearchValue)
    (useKeywordSubFields : bool) (modifier : option string) : Result :=
  match modifierCheck modifier with
  | Some e => Throw e
  | None =>
      if forEachThrows realm tokenDataTypesMap compiled then Throw TypeError
      else
        let queries :=
          queries realm tokenDataTypesMap compiled value useKeywordSubFields in
        if Nat.eqb (length queries) 1
        then Return (default (BoolMust queries) (queries !! 0%nat))
        else Return (BoolMust queries)
  end.

(** ** Reading the output *)

(** A fragment and every fragment nested in it. *)
Fixpoint subqueries (q : Query) : list Query :=
  q :: match q with
       | BoolMust must => flat_map subqueries must
       | _ => []
       end.

(** Every field name a fragment mentions. *)
Fixpoint fieldNames (q : Query) : list string :=
  match q with
  | MultiMatch fields _ _ => fields
  | BoolMustNotExists field => [field]
  | BoolMust must => flat_map fieldNames must
  end.

Definition resultFieldNames (r : Result) : list string :=
  match r with
  | Return q => fieldNames q
  | Throw _ => []
  end.

(** [String.prototype.endsWith]. *)
Definition endsWith (s suffix : string) : bool :=
  Nat.leb (String.length suffix) (String.length s)
  && String.eqb
       (substring (String.length s - String.length suffix)
          (String.length suffix) s)
       suffix.

(** How many of the three clause producers apply to a value. *)
Definition applicable (value : TokenSearchValue) : nat :=
  (if defined (system value) then 1 else 0)
  + (if defined (code value) then 1 else 0)
  + (if truthyFlag (explicitNoSystemProperty value) then 1 else 0).

(** The set of tag codes of a type list, as a membership test. *)
Definition hasTag (dataTypes : list DataType.t) (tag : string) : bool :=
  existsb (fun dataType => String.eqb (DataType.code dataType) tag) dataTypes.

(** The flags as membership tests over the eight recognised tags. *)
Definition flagsOfTags (has : string -> bool) : TypeFlags :=
  {| hasIdentifierType := has "Identifier"; hasCodeType := has "code";
     hasCodeableConceptType := has "CodeableConcept"; hasIdType := has "id";
     hasStringType := has "string"; hasBooleanType := has "boolean";
     hasCodingType := has "Coding";
     hasContactPointType := has "ContactPoint" |}.

Definition tagged (c : string) : DataType.t := {| DataType.code := c |}.

(** The eight type codes the [forEach] callback compares [dataType.code]
    with (lines 56-63). *)
Definition recognisedTags : list string :=
  ["Identifier"; "code"; "CodeableConcept"; "id"; "string"; "boolean";
   "Coding"; "ContactPoint"].

(** None of the eight flags is set: the case in which the code block of a
    known entry reaches its fallback (line 136). *)
Definition noneSet (f : TypeFlags) : bool :=
  negb (hasIdentifierType f || hasCodeType f || hasCodeableConceptType f
        || hasIdType f || hasStringType f || hasBooleanType f
        || hasCodingType f || hasContactPointType f).

(** Whether a fragment is a [{ bool: { must } }] composite. *)
Definition isComposite (q : Query) : bool :=
  match q with
  | BoolMust _ => true
  | _ => false
  end.

(** ** The examples of the specification *)

Example patient_identifier :
  tokenQuery es2015
      {[ "Patient" := {[ "identifier" := [tagged "Identifier"] ]} ]}
    {| resourceType := "Patient"; path := "identifier" |}
    {| system := Some "http://sys"; code := Some "123";
       explicitNoSystemProperty := None |}
    true None
  = Return (BoolMust
      [MultiMatch ["identifier.system.keyword"] "http://sys" true;
       MultiMatch ["identifier.value.keyword"] "123" true]).
Proof. vm_compute. reflexivity. Qed.

Example unknown_path :
  tokenQuery es2015 ∅ {| resourceType := "X"; path := "foo" |}
    {| system := None; code := Some "bar"; explicitNoSystemProperty := None |}
    false None
  = Return (MultiMatch ["foo.code"; "foo.coding.code"; "foo.value"; "foo"]
              "bar" true).
Proof. vm_compute. reflexivity. Qed.

(** ** Type resolution: the table entry and the flags *)

(** An own entry passes both tests of lines 44-45. *)
Lemma dataTypeExists_entry (realm : Realm) (tm : TypeMap)
    (compiled : CompiledSearchParam) (l : list DataType.t) :
  typeEntry tm compiled = Some l -> dataTypeExists realm tm compiled = true.
Proof.
  unfold dataTypeExists, typeEntry, hasKey.
  destruct (tm !! resourceType compiled) as [ofResource|]; simpl;
    [|discriminate].
  intros ->. reflexivity.
Qed.

Lemma dataTypesValue_entry (realm : Realm) (tm : TypeMap)
    (compiled : CompiledSearchParam) (l : list DataType.t) :
  typeEntry tm compiled = Some l ->
  dataTypesValue realm tm compiled = ArrayOf l.
Proof.
  intros Hentry. unfold dataTypesValue.
  rewrite (dataTypeExists_entry _ _ _ _ Hentry), Hentry. reflexivity.
Qed.

Lemma dataTypes_entry (realm : Realm) (tm : TypeMap)
    (compiled : CompiledSearchParam) (l : list DataType.t) :
  typeEntry tm compiled = Some l -> dataTypes realm tm compiled = l.
Proof.
  intros Hentry. unfold dataTypes.
  rewrite (dataTypesValue_entry _ _ _ _ Hentry). reflexivity.
Qed.

Lemma forEachThrows_entry (realm : Realm) (tm : TypeMap)
    (compiled : CompiledSearchParam) (l : list DataType.t) :
  typeEntry tm compiled = Some l -> forEachThrows realm tm compiled = false.
Proof.
  intros Hentry. unfold forEachThrows.
  rewrite (dataTypesValue_entry _ _ _ _ Hentry). reflexivity.
Qed.

Lemma dataTypes_typeEntry (realm : Realm) (tm : TypeMap)
    (compiled : CompiledSearchParam) :
  dataTypes realm tm compiled = default [] (typeEntry tm compiled).
Proof.
  destruct (typeEntry tm compiled) as [l|] eqn:Hentry.
  - apply dataTypes_entry. assumption.
  - unfold dataTypes, dataTypesValue. rewrite Hentry.
    destruct (dataTypeExists realm tm compiled); reflexivity.
Qed.

Lemma dataTypes_unknown (realm : Realm) (tm : TypeMap)
    (compiled : CompiledSearchParam) :
  dataTypeExists realm tm compiled = false -> dataTypes realm tm compiled = [].
Proof. unfold dataTypes, dataTypesValue. intros ->. reflexivity. Qed.

Lemma forEachThrows_unknown (realm : Realm) (tm : TypeMap)
    (compiled : CompiledSearchParam) :
  dataTypeExists realm tm compiled = false ->
  forEachThrows realm tm compiled = false.
Proof. unfold forEachThrows, dataTypesValue. intros ->. reflexivity. Qed.

(** [forEach] throws exactly when the tests of lines 44-45 succeed without
    an own entry, that is on an inherited key. *)
Lemma forEachThrows_iff (realm : Realm) (tm : TypeMap)
    (compiled : CompiledSearchParam) :
  forEachThrows realm tm compiled = true
  <-> dataTypeExists realm tm compiled = true /\ typeEntry tm compiled = None.
Proof.
  unfold forEachThrows, dataTypesValue.
  destruct (dataTypeExists realm tm compiled), (typeEntry tm compiled);
    simpl; intuition congruence.
Qed.

(** For names that [Object.prototype] does not have, the two tests find the
    own entry and nothing else. *)
Lemma dataTypeExists_own_names (realm : Realm) (tm : TypeMap)
    (compiled : CompiledSearchParam) :
  includes OBJECT_PROTOTYPE_KEYS (resourceType compiled) = false ->
  includes OBJECT_PROTOTYPE_KEYS (path compiled) = false ->
  dataTypeExists realm tm compiled = defined (typeEntry tm compiled).
Proof.
  intros Htype Hpath. unfold dataTypeExists, typeEntry, hasKey.
  rewrite Htype, Hpath, !orb_false_r.
  destruct (tm !! resourceType compiled) as [ofResource|]; simpl;
    [|reflexivity].
  destruct (ofResource !! path compiled); reflexivity.
Qed.

Lemma forEachThrows_own_names (realm : Realm) (tm : TypeMap)
    (compiled : CompiledSearchParam) :
  includes OBJECT_PROTOTYPE_KEYS (resourceType compiled) = false ->
  includes OBJECT_PROTOTYPE_KEYS (path compiled) = false ->
  forEachThrows realm tm compiled = false.
Proof.
  intros Htype Hpath. unfold forEachThrows, dataTypesValue.
  rewrite (dataTypeExists_own_names _ _ _ Htype Hpath).
  destruct (typeEntry tm compiled); reflexivity.
Qed.

(** One flag after the loop: its value before, or the tag was met. *)
Lemma foldl_flag (proj : TypeFlags -> bool) (tag : string) :
  (forall f d,
      proj (accumulate f d) = proj f || String.eqb (DataType.code d) tag) ->
  forall l f, proj (foldl accumulate f l) = proj f || hasTag l tag.
Proof.
  intros Hstep l. induction l as [|d l IH]; intros f; simpl.
  - rewrite orb_false_r. reflexivity.
  - rewrite IH, Hstep, orb_assoc. reflexivity.
Qed.

Lemma flags_eta (f : TypeFlags) :
  f = {| hasIdentifierType := hasIdentifierType f;
         hasCodeType := hasCodeType f;
         hasCodeableConceptType := hasCodeableConceptType f;
         hasIdType := hasIdType f;
         hasStringType := hasStringType f;
         hasBooleanType := hasBooleanType f;
         hasCodingType := hasCodingType f;
         hasContactPointType := hasContactPointType f |}.
Proof. destruct f; reflexivity. Qed.

(** The accumulation loop computes membership of the eight tags. *)
Lemma typeFlags_tags (l : list DataType.t) :
  typeFlags l = flagsOfTags (hasTag l).
Proof.
  rewrite (flags_eta (typeFlags l)). unfold flagsOfTags, typeFlags.
  f_equal;
    match goal with
    | |- _ = hasTag l ?tag =>
        rewrite (foldl_flag _ tag) by (intros; reflexivity); reflexivity
    end.
Qed.

Lemma hasTag_In (l : list DataType.t) (tag : string) :
  hasTag l tag = true <-> In tag (map DataType.code l).
Proof.
  unfold hasTag. rewrite existsb_exists, in_map_iff. split.
  - intros (d & Hd & Heq). apply String.eqb_eq in Heq. eauto.
  - intros (d & Heq & Hd). exists d. split; [assumption|].
    apply String.eqb_eq. assumption.
Qed.

Lemma hasTag_same_tags (l1 l2 : list DataType.t) :
  (forall tag,
      In tag (map DataType.code l1) <-> In tag (map DataType.code l2)) ->
  forall tag, hasTag l1 tag = hasTag l2 tag.
Proof.
  intros Hsame tag. apply eq_true_iff_eq. rewrite !hasTag_In. apply Hsame.
Qed.

Lemma typeFlags_same_tags (l1 l2 : list DataType.t) :
  (forall tag,
      In tag (map DataType.code l1) <-> In tag (map DataType.code l2)) ->
  typeFlags l1 = typeFlags l2.
Proof.
  intros Hsame. rewrite !typeFlags_tags. unfold flagsOfTags.
  rewrite !(hasTag_same_tags l1 l2 Hsame). reflexivity.
Qed.

(** ** The selected fields are canonical and never empty *)

Lemma useKeywordSuffix_true (ukw : bool) (compiled : CompiledSearchParam) :
  useKeywordSuffix ukw compiled = true <-> ukw = true /\ path compiled <> "id".
Proof.
  unfold useKeywordSuffix, includes, FIELDS_WITHOUT_KEYWORD. simpl.
  rewrite orb_false_r, andb_true_iff, negb_true_iff, String.eqb_neq.
  reflexivity.
Qed.

Lemma keywordSuffix_id (ukw : bool) (rt : string) :
  keywordSuffix ukw {| resourceType := rt; path := "id" |} = "".
Proof. destruct ukw; reflexivity. Qed.

Lemma push_nonempty {A : Type} (fields items : list A) :
  items <> [] ->
  (if Nat.eqb (length fields) 0 then push fields items else fields) <> [].
Proof.
  intros Hitems. destruct fields as [|x fields]; simpl.
  - assumption.
  - discriminate.
Qed.

Lemma systemFields_nonempty (p suffix : string) (e : bool) (f : TypeFlags) :
  systemFields p suffix e f <> [].
Proof.
  unfold systemFields. destruct e.
  - apply push_nonempty. discriminate.
  - discriminate.
Qed.

Lemma codeFields_nonempty (p suffix : string) (u e : bool) (f : TypeFlags) :
  codeFields p suffix u e f <> [].
Proof.
  unfold codeFields. destruct e.
  - apply push_nonempty. discriminate.
  - destruct u; discriminate.
Qed.

(** Whatever the flags, the system block selects among its two canonical
    fields. *)
Lemma systemFields_incl (p suffix : string) (e : bool) (f : TypeFlags) :
  incl (systemFields p suffix e f)
    [p +:+ ".system" +:+ suffix; p +:+ ".coding.system" +:+ suffix].
Proof.
  unfold systemFields.
  destruct e, (hasIdentifierType f || hasCodingType f),
    (hasCodeableConceptType f);
    intros x; simpl; tauto.
Qed.

(** Whatever the flags, the code block selects among its four canonical
    fields and the bare path. *)
Lemma codeFields_incl (p suffix : string) (u e : bool) (f : TypeFlags) :
  incl (codeFields p suffix u e f)
    [p +:+ ".code" +:+ suffix; p +:+ ".coding.code" +:+ suffix;
     p +:+ ".value" +:+ suffix; p +:+ suffix; p].
Proof.
  unfold codeFields.
  destruct e, u, (hasCodingType f), (hasCodeableConceptType f),
    (hasIdentifierType f || hasContactPointType f),
    (hasCodeType f || hasStringType f || hasBooleanType f || hasIdType f),
    (hasBooleanType f);
    intros x; simpl; tauto.
Qed.

(** ** The composer *)

Lemma tokenQuery_accepted (realm : Realm) (tm : TypeMap)
    (compiled : CompiledSearchParam) (value : TokenSearchValue) (ukw : bool)
    (modifier : option string) :
  modifierCheck modifier = None ->
  forEachThrows realm tm compiled = false ->
  tokenQuery realm tm compiled value ukw modifier
  = Return match queries realm tm compiled value ukw with
           | [q] => q
           | _ => BoolMust (queries realm tm compiled value ukw)
           end.
Proof.
  intros Hcheck Hlookup. unfold tokenQuery. rewrite Hcheck, Hlookup.
  destruct (queries realm tm compiled value ukw) as [|q [|q' qs]]; reflexivity.
Qed.

(** A fragment is returned only past the modifier guard and the loop. *)
Lemma tokenQuery_Return (realm : Realm) (tm : TypeMap)
    (compiled : CompiledSearchParam) (value : TokenSearchValue) (ukw : bool)
    (modifier : option string) (q : Query) :
  tokenQuery realm tm compiled value ukw modifier = Return q ->
  modifierCheck modifier = None /\ forEachThrows realm tm compiled = false.
Proof.
  unfold tokenQuery.
  destruct (modifierCheck modifier); [discriminate|].
  destruct (forEachThrows realm tm compiled); [discriminate|]. auto.
Qed.

(** The three outcomes: the modifier error, the [TypeError] of the loop, a
    fragment. *)
Lemma tokenQuery_outcome (realm : Realm) (tm : TypeMap)
    (compiled : CompiledSearchParam) (value : TokenSearchValue) (ukw : bool)
    (modifier : option string) :
  (exists e, tokenQuery realm tm compiled value ukw modifier = Throw e)
  \/ (modifierCheck modifier = None
      /\ forEachThrows realm tm compiled = false).
Proof.
  unfold tokenQuery.
  destruct (modifierCheck modifier); [eauto|].
  destruct (forEachThrows realm tm compiled); eauto.
Qed.

Lemma modifierCheck_None (modifier : option string) :
  modifierCheck modifier = None <-> truthy modifier = false.
Proof.
  unfold modifierCheck. destruct modifier as [m|]; [|tauto].
  simpl. rewrite andb_true_r. destruct (negb (String.eqb m "")); split;
    intros; congruence.
Qed.

(** The clauses, as the three blocks leave them in [queries]. *)
Lemma queries_eq (realm : Realm) (tm : TypeMap) (compiled : CompiledSearchParam)
    (value : TokenSearchValue) (ukw : bool) :
  queries realm tm compiled value ukw
  = match system value with
    | Some s => [systemClause realm tm compiled ukw s]
    | None => []
    end
    ++ match code value with
       | Some c => [codeClause realm tm compiled ukw c]
       | None => []
       end
    ++ (if truthyFlag (explicitNoSystemProperty value)
        then [absenceClause compiled] else []).
Proof.
  unfold queries, push.
  destruct (system value), (code value),
    (truthyFlag (explicitNoSystemProperty value)); reflexivity.
Qed.

(** ** Type lists are read as sets of tags *)

(** C9. When the type table has an entry for the compiled parameter, the
    compiler's result depends on the entry only through the set of tag codes
    it contains: two tables whose entries hold the same set of codes, in any
    order and with any repetitions, give the same result on the same
    remaining inputs. *)
Theorem tokenQuery_same_tags (realm : Realm) (tm1 tm2 : TypeMap)
    (compiled : CompiledSearchParam) (value : TokenSearchValue)
    (useKeywordSubFields : bool) (modifier : option string)
    (l1 l2 : list DataType.t) :
  typeEntry tm1 compiled = Some l1 ->
  typeEntry tm2 compiled = Some l2 ->
  (forall tag,
      In tag (map DataType.code l1) <-> In tag (map DataType.code l2)) ->
  tokenQuery realm tm1 compiled value useKeywordSubFields modifier
  = tokenQuery realm tm2 compiled value useKeywordSubFields modifier.
Proof.
  intros H1 H2 Hsame.
  unfold tokenQuery, queries, systemClause, codeClause,
    systemFieldsFor, codeFieldsFor.
  rewrite (forEachThrows_entry _ _ _ _ H1), (forEachThrows_entry _ _ _ _ H2),
    (dataTypeExists_entry _ _ _ _ H1), (dataTypeExists_entry _ _ _ _ H2),
    (dataTypes_entry _ _ _ _ H1), (dataTypes_entry _ _ _ _ H2).
  rewrite (typeFlags_same_tags l1 l2 Hsame). reflexivity.
Qed.

Lemma tokenQuery_same_tags_witness :
  tokenQuery
    es2015
    {[ "Patient" := {[ "active" := [tagged "Identifier"; tagged "boolean"] ]} ]}
    {| resourceType := "Patient"; path := "active" |}
    {| system := Some "s"; code := Some "true";
       explicitNoSystemProperty := None |}
    true None
  = tokenQuery
      es2015 {[ "Patient" :=
           {[ "active" :=
                [tagged "boolean"; tagged "Identifier"; tagged "boolean"] ]} ]}
      {| resourceType := "Patient"; path := "active" |}
      {| system := Some "s"; code := Some "true";
         explicitNoSystemProperty := None |}
      true None.
Proof.
  apply (tokenQuery_same_tags es2015 _ _ _ _ _ _
           [tagged "Identifier"; tagged "boolean"]
           [tagged "boolean"; tagged "Identifier"; tagged "boolean"]).
  - vm_compute. reflexivity.
  - vm_compute. reflexivity.
  - intros tag. simpl. tauto.
Defined.

(** A permutation of the entry is one such change. *)
Corollary tokenQuery_permutation (realm : Realm) (tm1 tm2 : TypeMap)
    (compiled : CompiledSearchParam) (value : TokenSearchValue)
    (useKeywordSubFields : bool) (modifier : option string)
    (l1 l2 : list DataType.t) :
  typeEntry tm1 compiled = Some l1 ->
  typeEntry tm2 compiled = Some l2 ->
  Permutation l1 l2 ->
  tokenQuery realm tm1 compiled value useKeywordSubFields modifier
  = tokenQuery realm tm2 compiled value useKeywordSubFields modifier.
Proof.
  intros H1 H2 Hperm.
  unfold tokenQuery, queries, systemClause, codeClause,
    systemFieldsFor, codeFieldsFor.
  rewrite (forEachThrows_entry _ _ _ _ H1), (forEachThrows_entry _ _ _ _ H2),
    (dataTypeExists_entry _ _ _ _ H1), (dataTypeExists_entry _ _ _ _ H2),
    (dataTypes_entry _ _ _ _ H1), (dataTypes_entry _ _ _ _ H2).
  rewrite (typeFlags_same_tags l1 l2); [reflexivity|].
  intros tag. split; apply Permutation_in, Permutation_map;
    [assumption | symmetry; assumption].
Qed.

(** ** The fallback of a known entry and the unknown-type case *)

(** C1, as the specification states it, fails: with the keyword suffix in
    use, an entry holding no recognised tag selects the four canonical code
    fields, and a missing entry selects those and the bare path. *)
Lemma fallback_differs_from_unknown_type :
  dataTypeExists es2015 {[ "Patient" := {[ "language" := [tagged "uri"] ]} ]}
    {| resourceType := "Patient"; path := "language" |} = true
  /\ typeFlags
       (dataTypes es2015 {[ "Patient" := {[ "language" := [tagged "uri"] ]} ]}
          {| resourceType := "Patient"; path := "language" |}) = noFlags
  /\ dataTypeExists es2015 ∅
       {| resourceType := "Patient"; path := "language" |} = false
  /\ codeFieldsFor es2015 {[ "Patient" := {[ "language" := [tagged "uri"] ]} ]}
       {| resourceType := "Patient"; path := "language" |} true
     = ["language.code.keyword"; "language.coding.code.keyword";
        "language.value.keyword"; "language.keyword"]
  /\ codeFieldsFor es2015
      ∅ {| resourceType := "Patient"; path := "language" |} true
     = ["language.code.keyword"; "language.coding.code.keyword";
        "language.value.keyword"; "language.keyword"; "language"]
  /\ codeFieldsFor es2015 {[ "Patient" := {[ "language" := [tagged "uri"] ]} ]}
       {| resourceType := "Patient"; path := "language" |} true
     <> codeFieldsFor es2015 ∅
          {| resourceType := "Patient"; path := "language" |} true.
Proof.
  repeat split; try (vm_compute; reflexivity).
  vm_compute. discriminate.
Qed.

(** C1, amended. When the table has an entry for the parameter and none of
    the eight flags is set, the system fields are those of the unknown-type
    case; the code fields are those of the unknown-type case without the
    bare path that case appends when the keyword suffix is in use (and so
    the same list when it is not). *)
Theorem fallback_and_unknown_type (realm : Realm) (tm tm' : TypeMap)
    (compiled : CompiledSearchParam) (useKeywordSubFields : bool) :
  dataTypeExists realm tm compiled = true ->
  typeFlags (dataTypes realm tm compiled) = noFlags ->
  dataTypeExists realm tm' compiled = false ->
  systemFieldsFor realm tm compiled useKeywordSubFields
  = systemFieldsFor realm tm' compiled useKeywordSubFields
  /\ codeFieldsFor realm tm' compiled useKeywordSubFields
     = codeFieldsFor realm tm compiled useKeywordSubFields
       ++ (if useKeywordSuffix useKeywordSubFields compiled
           then [path compiled] else []).
Proof.
  intros Hexists Hflags Hunknown.
  unfold systemFieldsFor, codeFieldsFor.
  rewrite Hexists, Hflags, Hunknown. unfold systemFields, codeFields. simpl.
  split; [reflexivity|].
  destruct (useKeywordSuffix useKeywordSubFields compiled); reflexivity.
Qed.

Lemma fallback_and_unknown_type_witness :
  systemFieldsFor es2015 {[ "Patient" := {[ "language" := [tagged "uri"] ]} ]}
    {| resourceType := "Patient"; path := "language" |} true
  = systemFieldsFor es2015
      ∅ {| resourceType := "Patient"; path := "language" |} true
  /\ codeFieldsFor es2015
      ∅ {| resourceType := "Patient"; path := "language" |} true
     = codeFieldsFor es2015
         {[ "Patient" := {[ "language" := [tagged "uri"] ]} ]}
         {| resourceType := "Patient"; path := "language" |} true
       ++ (if useKeywordSuffix true
                {| resourceType := "Patient"; path := "language" |}
           then ["language"] else []).
Proof.
  apply (fallback_and_unknown_type es2015
           {[ "Patient" := {[ "language" := [tagged "uri"] ]} ]} ∅
           {| resourceType := "Patient"; path := "language" |} true).
  - vm_compute. reflexivity.
  - vm_compute. reflexivity.
  - vm_compute. reflexivity.
Defined.

(** Without the keyword suffix the two cases select the same code fields. *)
Corollary fallback_is_unknown_type_without_suffix (realm : Realm)
    (tm tm' : TypeMap)
    (compiled : CompiledSearchParam) (useKeywordSubFields : bool) :
  dataTypeExists realm tm compiled = true ->
  typeFlags (dataTypes realm tm compiled) = noFlags ->
  dataTypeExists realm tm' compiled = false ->
  useKeywordSuffix useKeywordSubFields compiled = false ->
  codeFieldsFor realm tm compiled useKeywordSubFields
  = codeFieldsFor realm tm' compiled useKeywordSubFields.
Proof.
  intros Hexists Hflags Hunknown Hsuffix.
  unfold codeFieldsFor.
  rewrite Hexists, Hflags, Hunknown, Hsuffix. reflexivity.
Qed.

(** ** The unknown-type case *)

(** C2, as the specification states it, fails for the path [id]: the bare
    path is appended when the keyword suffix is in use, which
    [useKeywordSubFields] alone does not decide. *)
Lemma unknown_type_id_without_extra_path :
  dataTypeExists es2015 ∅ {| resourceType := "Patient"; path := "id" |} = false
  /\ codeClause es2015 ∅ {| resourceType := "Patient"; path := "id" |} true "1"
     = MultiMatch ["id.code"; "id.coding.code"; "id.value"; "id"] "1" true
  /\ codeClause es2015 ∅ {| resourceType := "Patient"; path := "id" |} true "1"
     <> MultiMatch
          (["id" +:+ ".code"
              +:+ keywordSuffix true
                    {| resourceType := "Patient"; path := "id" |};
            "id" +:+ ".coding.code"
              +:+ keywordSuffix true
                    {| resourceType := "Patient"; path := "id" |};
            "id" +:+ ".value"
              +:+ keywordSuffix true
                    {| resourceType := "Patient"; path := "id" |};
            "id" +:+ keywordSuffix true
                       {| resourceType := "Patient"; path := "id" |}]
           ++ ["id"])
          "1" true.
Proof.
  repeat split; try (vm_compute; reflexivity).
  vm_compute. discriminate.
Qed.

(** C2, amended. When the table has no entry for the parameter, the system
    clause matches exactly [<path>.system<suffix>] and
    [<path>.coding.system<suffix>], and the code clause exactly the four
    canonical fields, followed by the bare path when the keyword suffix is
    in use, that is when [useKeywordSubFields] is true and the path is not
    [id]. *)
Theorem unknown_type_fields (realm : Realm) (tm : TypeMap)
    (compiled : CompiledSearchParam)
    (useKeywordSubFields : bool) (s c : string) :
  dataTypeExists realm tm compiled = false ->
  let p := path compiled in
  let suffix := keywordSuffix useKeywordSubFields compiled in
  systemClause realm tm compiled useKeywordSubFields s
  = MultiMatch [p +:+ ".system" +:+ suffix; p +:+ ".coding.system" +:+ suffix]
      s true
  /\ codeClause realm tm compiled useKeywordSubFields c
     = MultiMatch
         ([p +:+ ".code" +:+ suffix; p +:+ ".coding.code" +:+ suffix;
           p +:+ ".value" +:+ suffix; p +:+ suffix]
          ++ (if useKeywordSubFields && negb (String.eqb p "id")
              then [p] else []))
         c true.
Proof.
  intros Hunknown p suffix.
  unfold systemClause, codeClause, systemFieldsFor, codeFieldsFor.
  rewrite Hunknown. unfold systemFields, codeFields, push. simpl.
  split; [reflexivity|].
  unfold useKeywordSuffix, includes, FIELDS_WITHOUT_KEYWORD. simpl.
  rewrite orb_false_r. fold p.
  destruct (useKeywordSubFields && negb (String.eqb p "id")); reflexivity.
Qed.

Lemma unknown_type_fields_witness :
  systemClause es2015 ∅ {| resourceType := "X"; path := "foo" |} true "s"
  = MultiMatch ["foo.system.keyword"; "foo.coding.system.keyword"] "s" true
  /\ codeClause es2015 ∅ {| resourceType := "X"; path := "foo" |} true "bar"
     = MultiMatch
         ["foo.code.keyword"; "foo.coding.code.keyword"; "foo.value.keyword";
          "foo.keyword"; "foo"]
         "bar" true.
Proof.
  apply (unknown_type_fields es2015 ∅ {| resourceType := "X"; path := "foo" |}
           true "s" "bar").
  vm_compute. reflexivity.
Defined.

(** ** Boolean parameters under keyword suffixing *)

(** C4, as the specification states it, fails for the path [id], which
    never takes the suffix: a boolean entry for it selects the bare path
    only. *)
Lemma boolean_id_has_no_keyword_field :
  dataTypeExists es2015 {[ "Patient" := {[ "id" := [tagged "boolean"] ]} ]}
    {| resourceType := "Patient"; path := "id" |} = true
  /\ In "boolean"
       (map DataType.code
          (dataTypes es2015 {[ "Patient" := {[ "id" := [tagged "boolean"] ]} ]}
             {| resourceType := "Patient"; path := "id" |}))
  /\ tokenQuery es2015 {[ "Patient" := {[ "id" := [tagged "boolean"] ]} ]}
       {| resourceType := "Patient"; path := "id" |}
       {| system := None; code := Some "true";
          explicitNoSystemProperty := None |}
       true None
     = Return (MultiMatch ["id"] "true" true)
  /\ ~ In ("id" +:+ ".keyword") ["id"].
Proof.
  split; [vm_compute; reflexivity|].
  split; [vm_compute; auto|].
  split; [vm_compute; reflexivity|].
  simpl. intros [H|[]]. discriminate H.
Qed.

(** With the suffix in use, a boolean entry ends the selection with the
    bare path and the suffixed path. *)
Lemma codeFields_boolean (p suffix : string) (f : TypeFlags) :
  hasBooleanType f = true ->
  exists before, codeFields p suffix true true f = before ++ [p; p +:+ suffix].
Proof.
  intros Hflag. unfold codeFields. rewrite Hflag, orb_true_r.
  cbv zeta. rewrite orb_true_l, andb_true_l.
  match goal with
  | |- context [push (push ?fields [p]) _] => exists fields; generalize fields
  end.
  intros fields. unfold push. rewrite <- app_assoc. simpl.
  destruct fields; reflexivity.
Qed.

(** C4, amended. When [useKeywordSubFields] is true, the path is not [id],
    and the table's entry for the parameter contains the boolean tag, the
    fields of the code clause include both the bare path and
    [<path>.keyword]. *)
Theorem boolean_code_fields (realm : Realm) (tm : TypeMap)
    (compiled : CompiledSearchParam)
    (c : string) :
  path compiled <> "id" ->
  dataTypeExists realm tm compiled = true ->
  In "boolean" (map DataType.code (dataTypes realm tm compiled)) ->
  exists fields,
    codeClause realm tm compiled true c = MultiMatch fields c true
    /\ In (path compiled) fields
    /\ In (path compiled +:+ ".keyword") fields.
Proof.
  intros Hid Hexists Hbool.
  assert (Hsuffix : useKeywordSuffix true compiled = true)
    by (apply useKeywordSuffix_true; auto).
  assert (Hflag :
            hasBooleanType (typeFlags (dataTypes realm tm compiled)) = true).
  { rewrite typeFlags_tags. simpl. apply hasTag_In. assumption. }
  destruct (codeFields_boolean (path compiled) ".keyword" _ Hflag)
    as [before Hfields].
  exists (codeFieldsFor realm tm compiled true). split; [reflexivity|].
  unfold codeFieldsFor, keywordSuffix. rewrite Hsuffix, Hexists, Hfields.
  split; apply in_or_app; right; simpl; auto.
Qed.

Lemma boolean_code_fields_witness :
  exists fields,
    codeClause es2015 {[ "Patient" := {[ "active" := [tagged "boolean"] ]} ]}
      {| resourceType := "Patient"; path := "active" |} true "true"
    = MultiMatch fields "true" true
    /\ In "active" fields
    /\ In "active.keyword" fields.
Proof.
  apply (boolean_code_fields es2015
           {[ "Patient" := {[ "active" := [tagged "boolean"] ]} ]}
           {| resourceType := "Patient"; path := "active" |} "true").
  - discriminate.
  - vm_compute. reflexivity.
  - vm_compute. auto.
Defined.

Example patient_active :
  tokenQuery es2015 {[ "Patient" := {[ "active" := [tagged "boolean"] ]} ]}
    {| resourceType := "Patient"; path := "active" |}
    {| system := None; code := Some "true"; explicitNoSystemProperty := None |}
    true None
  = Return (MultiMatch ["active"; "active.keyword"] "true" true).
Proof. vm_compute. reflexivity. Qed.

(** ** Field names of a result *)

Lemma fieldNames_composed (qs : list Query) :
  fieldNames match qs with
             | [q] => q
             | _ => BoolMust qs
             end
  = flat_map fieldNames qs.
Proof.
  destruct qs as [|q [|q' qs]]; simpl; rewrite ?app_nil_r; reflexivity.
Qed.

Lemma subqueries_composed (qs : list Query) (x : Query) :
  In x (subqueries match qs with
                   | [q] => q
                   | _ => BoolMust qs
                   end) ->
  x = BoolMust qs \/ In x (flat_map subqueries qs).
Proof.
  destruct qs as [|q [|q' qs]]; simpl; rewrite ?app_nil_r.
  - intros [<-|[]]. auto.
  - intros Hin. right. destruct q; simpl in *; assumption.
  - intros [<-|Hin]; auto.
Qed.

(** The field names of the clauses, block by block. *)
Lemma fieldNames_queries (realm : Realm) (tm : TypeMap)
    (compiled : CompiledSearchParam)
    (value : TokenSearchValue) (ukw : bool) :
  flat_map fieldNames (queries realm tm compiled value ukw)
  = (if defined (system value)
     then systemFieldsFor realm tm compiled ukw else [])
    ++ (if defined (code value)
        then codeFieldsFor realm tm compiled ukw else [])
    ++ (if truthyFlag (explicitNoSystemProperty value)
        then [path compiled +:+ ".system"] else []).
Proof.
  rewrite queries_eq, !flat_map_app.
  destruct (system value), (code value),
    (truthyFlag (explicitNoSystemProperty value));
    simpl; rewrite ?app_nil_r; reflexivity.
Qed.

(** C5. For the path [id], whatever [useKeywordSubFields] and the other
    inputs are, no field name of the result ends in [.keyword]. *)
Theorem id_never_takes_keyword_suffix (realm : Realm) (tm : TypeMap)
    (rt : string)
    (value : TokenSearchValue) (useKeywordSubFields : bool)
    (modifier : option string) :
  Forall (fun name => endsWith name ".keyword" = false)
    (resultFieldNames
       (tokenQuery realm tm {| resourceType := rt; path := "id" |} value
          useKeywordSubFields modifier)).
Proof.
  set (compiled := {| resourceType := rt; path := "id" |}).
  destruct (tokenQuery_outcome realm tm compiled value useKeywordSubFields
              modifier) as [[e Hthrow]|[Hcheck Hlookup]].
  - rewrite Hthrow. constructor.
  - rewrite (tokenQuery_accepted _ _ _ _ _ _ Hcheck Hlookup).
    unfold resultFieldNames.
    rewrite fieldNames_composed, fieldNames_queries.
    assert (Hsys : Forall (fun name => endsWith name ".keyword" = false)
                     (systemFieldsFor realm tm compiled useKeywordSubFields)).
    { unfold systemFieldsFor. subst compiled. rewrite keywordSuffix_id.
      eapply incl_Forall; [apply systemFields_incl|].
      repeat constructor. }
    assert (Hcode : Forall (fun name => endsWith name ".keyword" = false)
                      (codeFieldsFor realm tm compiled useKeywordSubFields)).
    { unfold codeFieldsFor. subst compiled. rewrite keywordSuffix_id.
      eapply incl_Forall; [apply codeFields_incl|].
      repeat constructor. }
    repeat apply Forall_app_2.
    + destruct (defined (system value)); [assumption | constructor].
    + destruct (defined (code value)); [assumption | constructor].
    + destruct (truthyFlag (explicitNoSystemProperty value));
        repeat constructor.
Qed.

Example id_with_keyword_sub_fields :
  tokenQuery es2015 {[ "Patient" := {[ "id" := [tagged "id"] ]} ]}
    {| resourceType := "Patient"; path := "id" |}
    {| system := Some "s"; code := Some "42";
       explicitNoSystemProperty := Some true |}
    true None
  = Return (BoolMust
      [MultiMatch ["id.system"; "id.coding.system"] "s" true;
       MultiMatch ["id"] "42" true;
       BoolMustNotExists "id.system"]).
Proof. vm_compute. reflexivity. Qed.

(** ** No clause without fields *)

(** C10. Every [multi_match] clause of a result, at any depth, has a
    non-empty list of fields. *)
Theorem multi_match_fields_nonempty (realm : Realm) (tm : TypeMap)
    (compiled : CompiledSearchParam) (value : TokenSearchValue)
    (useKeywordSubFields : bool) (modifier : option string)
    (q : Query) (fields : list string) (query : string) (lenient : bool) :
  tokenQuery realm tm compiled value useKeywordSubFields modifier = Return q ->
  In (MultiMatch fields query lenient) (subqueries q) ->
  fields <> [].
Proof.
  intros Hret Hin.
  destruct (tokenQuery_Return _ _ _ _ _ _ _ Hret) as [Hcheck Hlookup].
  rewrite (tokenQuery_accepted _ _ _ _ _ _ Hcheck Hlookup) in Hret.
  injection Hret as <-.
  apply subqueries_composed in Hin as [Hin|Hin]; [discriminate|].
  rewrite queries_eq, !flat_map_app, !in_app_iff in Hin.
  destruct Hin as [Hin|[Hin|Hin]].
  - destruct (system value); simpl in Hin; [|contradiction].
    destruct Hin as [Heq|[]]. injection Heq as <- _ _.
    apply systemFields_nonempty.
  - destruct (code value); simpl in Hin; [|contradiction].
    destruct Hin as [Heq|[]]. injection Heq as <- _ _.
    apply codeFields_nonempty.
  - destruct (truthyFlag (explicitNoSystemProperty value)); simpl in Hin;
      [|contradiction].
    destruct Hin as [Heq|[]]. discriminate.
Qed.

Lemma multi_match_fields_nonempty_witness :
  ["identifier.value.keyword"] <> [].
Proof.
  apply (multi_match_fields_nonempty es2015
           {[ "Patient" := {[ "identifier" := [tagged "Identifier"] ]} ]}
           {| resourceType := "Patient"; path := "identifier" |}
           {| system := Some "http://sys"; code := Some "123";
              explicitNoSystemProperty := None |}
           true None
           (BoolMust
              [MultiMatch ["identifier.system.keyword"] "http://sys" true;
               MultiMatch ["identifier.value.keyword"] "123" true])
           ["identifier.value.keyword"] "123" true).
  - vm_compute. reflexivity.
  - simpl. auto.
Defined.

(** ** Modifier validation *)

(** C3, as the specification states it, fails for the empty modifier: it is
    set and is not a supported modifier, yet the guard tests its truthiness
    and lets it through. *)
Lemma empty_modifier_is_accepted :
  (exists m, Some "" = Some m /\ ~ In m SUPPORTED_MODIFIERS)
  /\ tokenQuery es2015 ∅ {| resourceType := "Patient"; path := "identifier" |}
       {| system := None; code := Some "123";
          explicitNoSystemProperty := None |}
       false (Some "")
     = Return (MultiMatch
                 ["identifier.code"; "identifier.coding.code";
                  "identifier.value"; "identifier"]
                 "123" true).
Proof.
  split.
  - exists "". split; [reflexivity | intros []].
  - vm_compute. reflexivity.
Qed.

(** C3, amended. The compiler throws an [InvalidSearchParameterError]
    exactly when the modifier is a non-empty string that is not a supported
    modifier (none is), and its message is then
    [Unsupported token search modifier: <modifier>]; when the modifier is
    unset, and when it is the empty string, the compiler returns a query
    fragment, provided the lookup in the type table does not end on a
    property inherited from [Object.prototype]. *)
Theorem modifier_validation (realm : Realm) (tm : TypeMap)
    (compiled : CompiledSearchParam) (value : TokenSearchValue)
    (useKeywordSubFields : bool) :
  (forall modifier message,
      tokenQuery realm tm compiled value useKeywordSubFields modifier
      = Throw (InvalidSearchParameterError message)
      <-> exists m,
            modifier = Some m /\ m <> "" /\ ~ In m SUPPORTED_MODIFIERS
            /\ message = "Unsupported token search modifier: " +:+ m)
  /\ (forEachThrows realm tm compiled = false ->
      (exists q,
          tokenQuery realm tm compiled value useKeywordSubFields None
          = Return q)
      /\ (exists q,
            tokenQuery realm tm compiled value useKeywordSubFields (Some "")
            = Return q)).
Proof.
  split.
  - intros modifier message.
    destruct (modifierCheck modifier) as [e'|] eqn:Hcheck.
    + unfold tokenQuery. rewrite Hcheck.
      unfold modifierCheck, SUPPORTED_MODIFIERS in Hcheck.
      destruct modifier as [m|]; [|discriminate]. simpl in Hcheck.
      rewrite andb_true_r in Hcheck.
      destruct (String.eqb_spec m "") as [->|Hne]; [discriminate|].
      simpl in Hcheck. injection Hcheck as <-. split.
      * intros [= <-]. exists m. auto.
      * intros (m' & [= <-] & _ & _ & ->). reflexivity.
    + split.
      * unfold tokenQuery. rewrite Hcheck.
        destruct (forEachThrows realm tm compiled); [discriminate|].
        destruct (Nat.eqb _ _); discriminate.
      * apply modifierCheck_None in Hcheck.
        intros (m & -> & Hne & _). simpl in Hcheck.
        apply negb_false_iff, String.eqb_eq in Hcheck. contradiction.
  - intros Hlookup.
    split; rewrite tokenQuery_accepted by (reflexivity || assumption); eauto.
Qed.

Lemma modifier_validation_witness :
  (exists q,
      tokenQuery es2015
        {[ "Patient" := {[ "identifier" := [tagged "Identifier"] ]} ]}
        {| resourceType := "Patient"; path := "identifier" |}
        {| system := None; code := Some "123";
           explicitNoSystemProperty := None |}
        true None
      = Return q)
  /\ (exists q,
        tokenQuery es2015
          {[ "Patient" := {[ "identifier" := [tagged "Identifier"] ]} ]}
          {| resourceType := "Patient"; path := "identifier" |}
          {| system := None; code := Some "123";
             explicitNoSystemProperty := None |}
          true (Some "")
        = Return q).
Proof.
  apply (modifier_validation es2015
           {[ "Patient" := {[ "identifier" := [tagged "Identifier"] ]} ]}
           {| resourceType := "Patient"; path := "identifier" |}
           {| system := None; code := Some "123";
              explicitNoSystemProperty := None |}
           true).
  vm_compute. reflexivity.
Defined.

Example unsupported_modifier :
  tokenQuery es2015 ∅ {| resourceType := "Patient"; path := "identifier" |}
    {| system := None; code := Some "123"; explicitNoSystemProperty := None |}
    false (Some "text")
  = Throw (InvalidSearchParameterError
             "Unsupported token search modifier: text").
Proof. vm_compute. reflexivity. Qed.

(** ** Composition of the clauses *)

(** X13. When at least two of the three clause producers apply, the
    compiler ends in one of three ways: the modifier error; the [TypeError]
    of the loop, when the lookup in the type table ended on an inherited
    property; otherwise a [bool.must] composite whose list holds exactly
    the clauses of the producers that apply, the system clause first, the
    code clause next, the explicit-absence clause last. *)
Theorem composite_of_several_clauses (realm : Realm) (tm : TypeMap)
    (compiled : CompiledSearchParam) (value : TokenSearchValue)
    (useKeywordSubFields : bool) (modifier : option string) :
  2 <= applicable value ->
  tokenQuery realm tm compiled value useKeywordSubFields modifier
  = match modifierCheck modifier with
    | Some e => Throw e
    | None =>
        if forEachThrows realm tm compiled then Throw TypeError
        else
          Return (BoolMust
            (match system value with
             | Some s =>
                 [MultiMatch
                    (systemFieldsFor realm tm compiled useKeywordSubFields)
                    s true]
             | None => []
             end
             ++ match code value with
                | Some c =>
                    [MultiMatch
                       (codeFieldsFor realm tm compiled useKeywordSubFields)
                       c true]
                | None => []
                end
             ++ (if truthyFlag (explicitNoSystemProperty value)
                 then [BoolMustNotExists (path compiled +:+ ".system")]
                 else [])))
    end.
Proof.
  intros Hmany.
  destruct (modifierCheck modifier) as [e|] eqn:Hcheck.
  { unfold tokenQuery. rewrite Hcheck. reflexivity. }
  destruct (forEachThrows realm tm compiled) eqn:Hlookup.
  { unfold tokenQuery. rewrite Hcheck, Hlookup. reflexivity. }
  rewrite (tokenQuery_accepted _ _ _ _ _ _ Hcheck Hlookup), queries_eq.
  unfold applicable in Hmany.
  destruct (system value), (code value),
    (truthyFlag (explicitNoSystemProperty value));
    simpl in *; try reflexivity; lia.
Qed.

Lemma composite_of_several_clauses_witness :
  tokenQuery es2015
    {[ "Patient" := {[ "identifier" := [tagged "Identifier"] ]} ]}
    {| resourceType := "Patient"; path := "identifier" |}
    {| system := None; code := Some "123";
       explicitNoSystemProperty := Some true |}
    true None
  = Return (BoolMust
      ([] ++ [MultiMatch
                (codeFieldsFor es2015
                   {[ "Patient" :=
                        {[ "identifier" := [tagged "Identifier"] ]} ]}
                   {| resourceType := "Patient"; path := "identifier" |}
                   true)
                "123" true]
          ++ [BoolMustNotExists "identifier.system"])).
Proof.
  rewrite (composite_of_several_clauses es2015
             {[ "Patient" := {[ "identifier" := [tagged "Identifier"] ]} ]}
             {| resourceType := "Patient"; path := "identifier" |}
             {| system := None; code := Some "123";
                explicitNoSystemProperty := Some true |}
             true None)
    by (vm_compute; lia).
  vm_compute. reflexivity.
Defined.

Example code_without_system :
  tokenQuery es2015
    {[ "Patient" := {[ "identifier" := [tagged "Identifier"] ]} ]}
    {| resourceType := "Patient"; path := "identifier" |}
    {| system := None; code := Some "123";
       explicitNoSystemProperty := Some true |}
    true None
  = Return (BoolMust
      [MultiMatch ["identifier.value.keyword"] "123" true;
       BoolMustNotExists "identifier.system"]).
Proof. vm_compute. reflexivity. Qed.

(** X14. When exactly one of the three clause producers applies, the
    compiler ends with the modifier error, with the [TypeError] of the
    loop, or with that producer's clause itself; in no case with a
    [bool.must] composite. *)
Theorem single_clause_unwrapped (realm : Realm) (tm : TypeMap)
    (compiled : CompiledSearchParam) (value : TokenSearchValue)
    (useKeywordSubFields : bool) (modifier : option string) :
  applicable value = 1 ->
  tokenQuery realm tm compiled value useKeywordSubFields modifier
  = match modifierCheck modifier with
    | Some e => Throw e
    | None =>
        if forEachThrows realm tm compiled then Throw TypeError
        else
          Return match system value, code value with
                 | Some s, _ =>
                     MultiMatch
                       (systemFieldsFor realm tm compiled useKeywordSubFields)
                       s true
                 | None, Some c =>
                     MultiMatch
                       (codeFieldsFor realm tm compiled useKeywordSubFields)
                       c true
                 | None, None =>
                     BoolMustNotExists (path compiled +:+ ".system")
                 end
    end
  /\ forall must,
       tokenQuery realm tm compiled value useKeywordSubFields modifier
       <> Return (BoolMust must).
Proof.
  intros Hone.
  destruct (modifierCheck modifier) as [e|] eqn:Hcheck.
  { unfold tokenQuery. rewrite Hcheck. split; [reflexivity | discriminate]. }
  destruct (forEachThrows realm tm compiled) eqn:Hlookup.
  { unfold tokenQuery. rewrite Hcheck, Hlookup.
    split; [reflexivity | discriminate]. }
  rewrite (tokenQuery_accepted _ _ _ _ _ _ Hcheck Hlookup), queries_eq.
  unfold applicable in Hone.
  destruct (system value), (code value),
    (truthyFlag (explicitNoSystemProperty value));
    simpl in *; try lia; (split; [reflexivity | discriminate]).
Qed.

Lemma single_clause_unwrapped_witness :
  tokenQuery es2015 ∅ {| resourceType := "X"; path := "foo" |}
    {| system := None; code := None;
       explicitNoSystemProperty := Some true |}
    false None
  = Return (BoolMustNotExists "foo.system")
  /\ forall must,
       tokenQuery es2015 ∅ {| resourceType := "X"; path := "foo" |}
         {| system := None; code := None;
            explicitNoSystemProperty := Some true |}
         false None
       <> Return (BoolMust must).
Proof.
  destruct (single_clause_unwrapped es2015 ∅
              {| resourceType := "X"; path := "foo" |}
              {| system := None; code := None;
                 explicitNoSystemProperty := Some true |}
              false None) as [Hresult Hunwrapped]; [reflexivity|].
  split; [|exact Hunwrapped].
  rewrite Hresult. vm_compute. reflexivity.
Defined.

(** X15. When the modifier check passes and none of the three clause
    producers applies ([system] and [code] undefined,
    [explicitNoSystemProperty] falsy), the compiler ends with the
    [TypeError] of the loop when the lookup in the type table ended on an
    inherited property, and otherwise returns the [bool.must] composite of
    no clause. *)
Theorem empty_composite (realm : Realm) (tm : TypeMap)
    (compiled : CompiledSearchParam) (value : TokenSearchValue)
    (useKeywordSubFields : bool) (modifier : option string) :
  modifierCheck modifier = None ->
  system value = None ->
  code value = None ->
  truthyFlag (explicitNoSystemProperty value) = false ->
  tokenQuery realm tm compiled value useKeywordSubFields modifier
  = if forEachThrows realm tm compiled then Throw TypeError
    else Return (BoolMust []).
Proof.
  intros Hcheck Hsystem Hcode Habsence.
  destruct (forEachThrows realm tm compiled) eqn:Hlookup.
  { unfold tokenQuery. rewrite Hcheck, Hlookup. reflexivity. }
  rewrite (tokenQuery_accepted _ _ _ _ _ _ Hcheck Hlookup), queries_eq.
  rewrite Hsystem, Hcode, Habsence. reflexivity.
Qed.

Lemma empty_composite_witness :
  tokenQuery es2015
    {[ "Patient" := {[ "identifier" := [tagged "Identifier"] ]} ]}
    {| resourceType := "Patient"; path := "identifier" |}
    {| system := None; code := None;
       explicitNoSystemProperty := Some false |}
    true (Some "")
  = Return (BoolMust []).
Proof.
  rewrite (empty_composite es2015
             {[ "Patient" := {[ "identifier" := [tagged "Identifier"] ]} ]}
             {| resourceType := "Patient"; path := "identifier" |}
             {| system := None; code := None;
                explicitNoSystemProperty := Some false |}
             true (Some "")) by reflexivity.
  vm_compute. reflexivity.
Defined.

(** ** Inherited keys *)

(** C6, at an inherited key. With the resource type in the table and the
    path [constructor], which every object inherits, the two [in] tests
    succeed, [dataTypes] is the [Object] function and the loop throws: a
    value with both [system] and [code] yields a [TypeError] in every
    realm, and no composite. *)
Theorem several_clauses_lost_on_inherited_key (realm : Realm) :
  tokenQuery realm
    {[ "Patient" := {[ "identifier" := [tagged "Identifier"] ]} ]}
    {| resourceType := "Patient"; path := "constructor" |}
    {| system := Some "http://sys"; code := Some "123";
       explicitNoSystemProperty := None |}
    false None
  = Throw TypeError.
Proof. vm_compute. reflexivity. Qed.

(** C7, at an inherited key. On the same table and path, a value with
    [explicitNoSystemProperty] alone yields a [TypeError] in every realm,
    and not the explicit-absence clause. *)
Theorem single_clause_lost_on_inherited_key (realm : Realm) :
  tokenQuery realm
    {[ "Patient" := {[ "identifier" := [tagged "Identifier"] ]} ]}
    {| resourceType := "Patient"; path := "constructor" |}
    {| system := None; code := None;
       explicitNoSystemProperty := Some true |}
    false None
  = Throw TypeError.
Proof. vm_compute. reflexivity. Qed.

(** C8, at an inherited key. On the same table and path, a value with
    nothing defined, the modifier check passed, yields a [TypeError] in
    every realm, and not the empty composite. *)
Theorem empty_composite_lost_on_inherited_key (realm : Realm) :
  modifierCheck None = None
  /\ tokenQuery realm
       {[ "Patient" := {[ "identifier" := [tagged "Identifier"] ]} ]}
       {| resourceType := "Patient"; path := "constructor" |}
       {| system := None; code := None; explicitNoSystemProperty := None |}
       false None
     = Throw TypeError.
Proof. split; [reflexivity | vm_compute; reflexivity]. Qed.

(** The [TypeError] is thrown exactly past the modifier guard, when the
    two tests of lines 44-45 succeed and the table has no own entry. *)
Lemma tokenQuery_TypeError (realm : Realm) (tm : TypeMap)
    (compiled : CompiledSearchParam) (value : TokenSearchValue)
    (useKeywordSubFields : bool) (modifier : option string) :
  tokenQuery realm tm compiled value useKeywordSubFields modifier
  = Throw TypeError
  <-> modifierCheck modifier = None
      /\ dataTypeExists realm tm compiled = true
      /\ typeEntry tm compiled = None.
Proof.
  rewrite <- forEachThrows_iff. unfold tokenQuery.
  destruct (modifierCheck modifier) as [e|] eqn:Hcheck.
  - split; [|intros [? _]; discriminate].
    intros [= ->]. unfold modifierCheck in Hcheck.
    destruct modifier; [|discriminate].
    destruct (_ && _); discriminate.
  - destruct (forEachThrows realm tm compiled); [tauto|].
    split; [|intros [_ ?]; discriminate].
    destruct (Nat.eqb _ _); discriminate.
Qed.

Example inherited_resource_type :
  tokenQuery es2015 ∅ {| resourceType := "constructor"; path := "name" |}
    {| system := None; code := None;
       explicitNoSystemProperty := Some true |}
    false None
  = Throw TypeError
  /\ tokenQuery es2015 ∅ {| resourceType := "Patient"; path := "name" |}
       {| system := None; code := None;
          explicitNoSystemProperty := Some true |}
       false None
     = Return (BoolMustNotExists "name.system").
Proof. split; vm_compute; reflexivity. Qed.

Example inherited_path_without_resource_type :
  tokenQuery es2015 ∅ {| resourceType := "Patient"; path := "constructor" |}
    {| system := None; code := Some "123"; explicitNoSystemProperty := None |}
    false None
  = Return (MultiMatch
              ["constructor.code"; "constructor.coding.code";
               "constructor.value"; "constructor"]
              "123" true).
Proof. vm_compute. reflexivity. Qed.

(** X16. No [TypeError] for ordinary names: when neither the resource type
    nor the path is a property name of [Object.prototype], the compiler
    never ends with a [TypeError], whatever the table and the other
    inputs; with the modifier unset it returns a fragment. *)
Theorem no_type_error_on_own_names (realm : Realm) (tm : TypeMap)
    (compiled : CompiledSearchParam) (value : TokenSearchValue)
    (useKeywordSubFields : bool) (modifier : option string) :
  includes OBJECT_PROTOTYPE_KEYS (resourceType compiled) = false ->
  includes OBJECT_PROTOTYPE_KEYS (path compiled) = false ->
  tokenQuery realm tm compiled value useKeywordSubFields modifier
  <> Throw TypeError
  /\ exists q,
       tokenQuery realm tm compiled value useKeywordSubFields None = Return q.
Proof.
  intros Htype Hpath.
  pose proof (forEachThrows_own_names realm tm _ Htype Hpath) as Hlookup.
  split.
  - intros Hthrow. apply tokenQuery_TypeError in Hthrow as (_ & Hexists & Hentry).
    assert (forEachThrows realm tm compiled = true)
      by (apply forEachThrows_iff; auto).
    congruence.
  - rewrite tokenQuery_accepted by (reflexivity || assumption). eauto.
Qed.

Lemma no_type_error_on_own_names_witness :
  tokenQuery es2015
    {[ "Patient" := {[ "identifier" := [tagged "Identifier"] ]} ]}
    {| resourceType := "Patient"; path := "name" |}
    {| system := None; code := Some "123";
       explicitNoSystemProperty := None |}
    true None
  <> Throw TypeError
  /\ exists q,
       tokenQuery es2015
         {[ "Patient" := {[ "identifier" := [tagged "Identifier"] ]} ]}
         {| resourceType := "Patient"; path := "name" |}
         {| system := None; code := Some "123";
            explicitNoSystemProperty := None |}
         true None
       = Return q.
Proof.
  apply (no_type_error_on_own_names es2015
           {[ "Patient" := {[ "identifier" := [tagged "Identifier"] ]} ]}
           {| resourceType := "Patient"; path := "name" |}
           {| system := None; code := Some "123";
              explicitNoSystemProperty := None |}
           true None);
    reflexivity.
Defined.

(** X17. A [TypeError] for every inherited path: when the resource type is
    a key of the table, the path is a property name of [Object.prototype]
    that the resource type's object does not have as its own key, and the
    modifier check passes, the compiler ends with a [TypeError], whatever
    the search value. *)
Theorem type_error_on_inherited_path (realm : Realm) (tm : TypeMap)
    (compiled : CompiledSearchParam) (value : TokenSearchValue)
    (useKeywordSubFields : bool) (modifier : option string)
    (ofResource : gmap string (list DataType.t)) :
  tm !! resourceType compiled = Some ofResource ->
  ofResource !! path compiled = None ->
  includes OBJECT_PROTOTYPE_KEYS (path compiled) = true ->
  modifierCheck modifier = None ->
  tokenQuery realm tm compiled value useKeywordSubFields modifier
  = Throw TypeError.
Proof.
  intros Htype Hown Hinherited Hcheck.
  apply tokenQuery_TypeError. split; [assumption|].
  unfold dataTypeExists, typeEntry, hasKey.
  rewrite Htype, Hinherited, orb_true_r, andb_true_r.
  rewrite bool_decide_eq_true_2 by eauto.
  split; [reflexivity | exact Hown].
Qed.

Lemma type_error_on_inherited_path_witness :
  tokenQuery es2015
    {[ "Patient" := {[ "identifier" := [tagged "Identifier"] ]} ]}
    {| resourceType := "Patient"; path := "toString" |}
    {| system := Some "http://sys"; code := None;
       explicitNoSystemProperty := None |}
    true (Some "")
  = Throw TypeError.
Proof.
  apply (type_error_on_inherited_path es2015
           {[ "Patient" := {[ "identifier" := [tagged "Identifier"] ]} ]}
           {| resourceType := "Patient"; path := "toString" |}
           {| system := Some "http://sys"; code := None;
              explicitNoSystemProperty := None |}
           true (Some "")
           {[ "identifier" := [tagged "Identifier"] ]});
    vm_compute; reflexivity.
Defined.

(** ** Strings built from a path *)

Lemma append_empty_r (p : string) : p +:+ "" = p.
Proof.
  induction p as [|a p IH]; [reflexivity|].
  change (String a (p +:+ "") = String a p). congruence.
Qed.

Lemma append_eq_self (p x : string) : p +:+ x = p -> x = "".
Proof.
  intros H. rewrite <- (append_empty_r p) in H at 2.
  apply (inj (String.app p)) in H. assumption.
Qed.

Lemma append_cancel (p x y : string) : p +:+ x = p +:+ y -> x = y.
Proof. apply (inj (String.app p)). Qed.

(** Closes a goal from an equation between two different names built on the
    same path. *)
Ltac different_names :=
  match goal with
  | H : ?p +:+ _ = ?p +:+ _ |- _ => apply append_cancel in H; discriminate H
  | H : ?p +:+ _ = ?p |- _ => apply append_eq_self in H; discriminate H
  | H : ?p = ?p +:+ _ |- _ =>
      symmetry in H; apply append_eq_self in H; discriminate H
  end.

(** The suffix and the test it is computed from go together. *)
Lemma suffix_cases (ukw : bool) (compiled : CompiledSearchParam) :
  (useKeywordSuffix ukw compiled = true
   /\ keywordSuffix ukw compiled = ".keyword")
  \/ (useKeywordSuffix ukw compiled = false
      /\ keywordSuffix ukw compiled = "").
Proof.
  unfold keywordSuffix. destruct (useKeywordSuffix ukw compiled); auto.
Qed.

(** ** What the type table can and cannot change *)

(** With the suffix not in use the code block never selects the bare path
    on its own; with it, only besides the canonical four. *)
Lemma codeFields_incl_unknown (p suffix : string) (u e : bool) (f : TypeFlags) :
  incl (codeFields p suffix u e f) (codeFields p suffix u false f).
Proof.
  unfold codeFields.
  destruct e, u, (hasCodingType f), (hasCodeableConceptType f),
    (hasIdentifierType f || hasContactPointType f),
    (hasCodeType f || hasStringType f || hasBooleanType f || hasIdType f),
    (hasBooleanType f);
    intros x; simpl; tauto.
Qed.

(** X1. The unknown-type selection is a superset of every selection: for
    any table, the system fields and the code fields selected for a
    parameter are among those selected, for the same path and
    [useKeywordSubFields], when the table has no entry for it. *)
Theorem selection_within_unknown_type (realm : Realm) (tm tm' : TypeMap)
    (compiled : CompiledSearchParam) (useKeywordSubFields : bool) :
  dataTypeExists realm tm' compiled = false ->
  incl (systemFieldsFor realm tm compiled useKeywordSubFields)
    (systemFieldsFor realm tm' compiled useKeywordSubFields)
  /\ incl (codeFieldsFor realm tm compiled useKeywordSubFields)
       (codeFieldsFor realm tm' compiled useKeywordSubFields).
Proof.
  intros Hunknown. unfold systemFieldsFor, codeFieldsFor.
  rewrite Hunknown, (dataTypes_unknown _ _ _ Hunknown). split.
  - apply systemFields_incl.
  - eapply incl_tran; [apply codeFields_incl_unknown|].
    unfold codeFields. apply incl_refl.
Qed.

Lemma selection_within_unknown_type_witness :
  incl
    (systemFieldsFor
       es2015 {[ "Patient" := {[ "identifier" := [tagged "Identifier"] ]} ]}
       {| resourceType := "Patient"; path := "identifier" |} true)
    (systemFieldsFor es2015 ∅
       {| resourceType := "Patient"; path := "identifier" |} true)
  /\ incl
       (codeFieldsFor
          es2015 {[ "Patient" := {[ "identifier" := [tagged "Identifier"] ]} ]}
          {| resourceType := "Patient"; path := "identifier" |} true)
       (codeFieldsFor es2015 ∅
          {| resourceType := "Patient"; path := "identifier" |} true).
Proof.
  apply (selection_within_unknown_type es2015
           {[ "Patient" := {[ "identifier" := [tagged "Identifier"] ]} ]} ∅
           {| resourceType := "Patient"; path := "identifier" |} true).
  vm_compute. reflexivity.
Defined.

Lemma typeFlags_recognised (l1 l2 : list DataType.t) :
  (forall tag, In tag recognisedTags ->
     (In tag (map DataType.code l1) <-> In tag (map DataType.code l2))) ->
  typeFlags l1 = typeFlags l2.
Proof.
  intros Hsame. rewrite !typeFlags_tags. unfold flagsOfTags.
  assert (Hhas : forall tag, In tag recognisedTags ->
                   hasTag l1 tag = hasTag l2 tag).
  { intros tag Htag. apply eq_true_iff_eq. rewrite !hasTag_In. auto. }
  f_equal; apply Hhas; unfold recognisedTags; simpl; auto 10.
Qed.

(** X2. Only the eight recognised type codes are read from a table entry:
    two entries that agree on which of [Identifier], [code],
    [CodeableConcept], [id], [string], [boolean], [Coding] and
    [ContactPoint] they contain give the same result, whatever other codes
    they hold. *)
Theorem unrecognised_tags_ignored (realm : Realm) (tm1 tm2 : TypeMap)
    (compiled : CompiledSearchParam) (value : TokenSearchValue)
    (useKeywordSubFields : bool) (modifier : option string)
    (l1 l2 : list DataType.t) :
  typeEntry tm1 compiled = Some l1 ->
  typeEntry tm2 compiled = Some l2 ->
  (forall tag, In tag recognisedTags ->
     (In tag (map DataType.code l1) <-> In tag (map DataType.code l2))) ->
  tokenQuery realm tm1 compiled value useKeywordSubFields modifier
  = tokenQuery realm tm2 compiled value useKeywordSubFields modifier.
Proof.
  intros H1 H2 Hsame.
  unfold tokenQuery, queries, systemClause, codeClause,
    systemFieldsFor, codeFieldsFor.
  rewrite (forEachThrows_entry _ _ _ _ H1), (forEachThrows_entry _ _ _ _ H2),
    (dataTypeExists_entry _ _ _ _ H1), (dataTypeExists_entry _ _ _ _ H2),
    (dataTypes_entry _ _ _ _ H1), (dataTypes_entry _ _ _ _ H2).
  rewrite (typeFlags_recognised l1 l2 Hsame). reflexivity.
Qed.

Lemma unrecognised_tags_ignored_witness :
  tokenQuery
    es2015
    {[ "Patient" := {[ "identifier" := [tagged "Identifier"; tagged "uri"] ]} ]}
    {| resourceType := "Patient"; path := "identifier" |}
    {| system := Some "s"; code := Some "1";
       explicitNoSystemProperty := None |}
    true None
  = tokenQuery
      es2015 {[ "Patient" :=
           {[ "identifier" := [tagged "Quantity"; tagged "Identifier"] ]} ]}
      {| resourceType := "Patient"; path := "identifier" |}
      {| system := Some "s"; code := Some "1";
         explicitNoSystemProperty := None |}
      true None.
Proof.
  apply (unrecognised_tags_ignored es2015 _ _ _ _ _ _
           [tagged "Identifier"; tagged "uri"]
           [tagged "Quantity"; tagged "Identifier"]).
  - vm_compute. reflexivity.
  - vm_compute. reflexivity.
  - intros tag Htag. simpl in Htag.
    repeat (destruct Htag as [<-|Htag]; [simpl; intuition discriminate|]).
    destruct Htag.
Defined.

(** X3. When neither the resource type nor the path is a property name of
    [Object.prototype], the result depends on the table only through its
    own entry for the compiled parameter: two tables with the same entry
    for it, or both with none, give the same result. *)
Theorem only_the_entry_is_read (realm : Realm) (tm1 tm2 : TypeMap)
    (compiled : CompiledSearchParam) (value : TokenSearchValue)
    (useKeywordSubFields : bool) (modifier : option string) :
  includes OBJECT_PROTOTYPE_KEYS (resourceType compiled) = false ->
  includes OBJECT_PROTOTYPE_KEYS (path compiled) = false ->
  typeEntry tm1 compiled = typeEntry tm2 compiled ->
  tokenQuery realm tm1 compiled value useKeywordSubFields modifier
  = tokenQuery realm tm2 compiled value useKeywordSubFields modifier.
Proof.
  intros Htype Hpath Hentry.
  unfold tokenQuery, queries, systemClause, codeClause,
    systemFieldsFor, codeFieldsFor.
  rewrite !(forEachThrows_own_names _ _ _ Htype Hpath),
    !(dataTypeExists_own_names _ _ _ Htype Hpath),
    !dataTypes_typeEntry, Hentry.
  reflexivity.
Qed.

Lemma only_the_entry_is_read_witness :
  tokenQuery
    es2015 {[ "Patient" := {[ "active" := [tagged "boolean"] ]} ]}
    {| resourceType := "Patient"; path := "active" |}
    {| system := None; code := Some "true"; explicitNoSystemProperty := None |}
    true None
  = tokenQuery
      es2015 {[ "Patient" :=
           {[ "active" := [tagged "boolean"];
              "identifier" := [tagged "Identifier"] ]};
         "Group" := {[ "active" := [tagged "code"] ]} ]}
      {| resourceType := "Patient"; path := "active" |}
      {| system := None; code := Some "true";
         explicitNoSystemProperty := None |}
      true None.
Proof.
  apply (only_the_entry_is_read es2015
           {[ "Patient" := {[ "active" := [tagged "boolean"] ]} ]}
           {[ "Patient" :=
                {[ "active" := [tagged "boolean"];
                   "identifier" := [tagged "Identifier"] ]};
              "Group" := {[ "active" := [tagged "code"] ]} ]}).
  - reflexivity.
  - reflexivity.
  - vm_compute. reflexivity.
Defined.

(** ** What the suffix flag and the type table do not reach *)

(** X4. For a path listed in [FIELDS_WITHOUT_KEYWORD] the flag
    [useKeywordSubFields] has no effect: the result is the same whether it
    is true or false. *)
Theorem flag_ignored_without_keyword (realm : Realm) (tm : TypeMap)
    (compiled : CompiledSearchParam) (value : TokenSearchValue)
    (modifier : option string) :
  includes FIELDS_WITHOUT_KEYWORD (path compiled) = true ->
  tokenQuery realm tm compiled value true modifier
  = tokenQuery realm tm compiled value false modifier.
Proof.
  intros Hlisted.
  unfold tokenQuery, queries, systemClause, codeClause,
    systemFieldsFor, codeFieldsFor, keywordSuffix, useKeywordSuffix.
  rewrite Hlisted. reflexivity.
Qed.

Lemma flag_ignored_without_keyword_witness :
  tokenQuery es2015 {[ "Patient" := {[ "id" := [tagged "id"] ]} ]}
    {| resourceType := "Patient"; path := "id" |}
    {| system := None; code := Some "42"; explicitNoSystemProperty := None |}
    true None
  = tokenQuery es2015 {[ "Patient" := {[ "id" := [tagged "id"] ]} ]}
      {| resourceType := "Patient"; path := "id" |}
      {| system := None; code := Some "42";
         explicitNoSystemProperty := None |}
      false None.
Proof.
  apply (flag_ignored_without_keyword es2015
           {[ "Patient" := {[ "id" := [tagged "id"] ]} ]}
           {| resourceType := "Patient"; path := "id" |}
           {| system := None; code := Some "42";
              explicitNoSystemProperty := None |}
           None).
  reflexivity.
Defined.

(** X5. When neither [system] nor [code] is defined, what is returned
    depends on the path, on [explicitNoSystemProperty] and on the modifier
    only: two calls that agree on these and both return a fragment return
    the same one, whatever their type tables, resource types and
    [useKeywordSubFields]. *)
Theorem absence_needs_no_type (realm : Realm) (tm tm' : TypeMap)
    (compiled compiled' : CompiledSearchParam) (value : TokenSearchValue)
    (useKeywordSubFields useKeywordSubFields' : bool)
    (modifier : option string) (q q' : Query) :
  system value = None ->
  code value = None ->
  path compiled = path compiled' ->
  tokenQuery realm tm compiled value useKeywordSubFields modifier
  = Return q ->
  tokenQuery realm tm' compiled' value useKeywordSubFields' modifier
  = Return q' ->
  q = q'.
Proof.
  intros Hsystem Hcode Hpath Hret Hret'.
  destruct (tokenQuery_Return _ _ _ _ _ _ _ Hret) as [Hcheck Hlookup].
  destruct (tokenQuery_Return _ _ _ _ _ _ _ Hret') as [_ Hlookup'].
  rewrite (tokenQuery_accepted _ _ _ _ _ _ Hcheck Hlookup), queries_eq in Hret.
  rewrite (tokenQuery_accepted _ _ _ _ _ _ Hcheck Hlookup'), queries_eq
    in Hret'.
  unfold absenceClause in Hret, Hret'.
  rewrite Hsystem, Hcode in Hret, Hret'. rewrite Hpath in Hret.
  congruence.
Qed.

Lemma absence_needs_no_type_witness :
  BoolMustNotExists "identifier.system"
  = BoolMustNotExists "identifier.system".
Proof.
  apply (absence_needs_no_type es2015
           {[ "Patient" := {[ "identifier" := [tagged "Identifier"] ]} ]} ∅
           {| resourceType := "Patient"; path := "identifier" |}
           {| resourceType := "Group"; path := "identifier" |}
           {| system := None; code := None;
              explicitNoSystemProperty := Some true |}
           true false None);
    vm_compute; reflexivity.
Defined.

(** ** Every name is canonical *)

(** X6. Every field name of a result is the path followed by [.system],
    [.coding.system], [.code], [.coding.code], [.value] or nothing, then by
    the keyword suffix, or is the bare path or [<path>.system]. *)
Theorem field_names_are_canonical (realm : Realm) (tm : TypeMap)
    (compiled : CompiledSearchParam) (value : TokenSearchValue)
    (useKeywordSubFields : bool) (modifier : option string) :
  let p := path compiled in
  let suffix := keywordSuffix useKeywordSubFields compiled in
  Forall
    (fun name =>
       In name
         [p +:+ ".system" +:+ suffix; p +:+ ".coding.system" +:+ suffix;
          p +:+ ".code" +:+ suffix; p +:+ ".coding.code" +:+ suffix;
          p +:+ ".value" +:+ suffix; p +:+ suffix; p; p +:+ ".system"])
    (resultFieldNames
       (tokenQuery realm tm compiled value useKeywordSubFields modifier)).
Proof.
  intros p suffix.
  destruct (tokenQuery_outcome realm tm compiled value useKeywordSubFields
              modifier) as [[e Hthrow]|[Hcheck Hlookup]].
  { rewrite Hthrow. constructor. }
  rewrite (tokenQuery_accepted _ _ _ _ _ _ Hcheck Hlookup).
  unfold resultFieldNames.
  rewrite fieldNames_composed, fieldNames_queries.
  repeat apply Forall_app_2.
  - destruct (defined (system value)); [|constructor].
    unfold systemFieldsFor.
    eapply incl_Forall; [apply systemFields_incl|].
    repeat (constructor; [simpl; tauto|]). constructor.
  - destruct (defined (code value)); [|constructor].
    unfold codeFieldsFor.
    eapply incl_Forall; [apply codeFields_incl|].
    repeat (constructor; [simpl; tauto|]). constructor.
  - destruct (truthyFlag (explicitNoSystemProperty value));
      [|constructor].
    constructor; [simpl; tauto | constructor].
Qed.

(** ** Size of the selections *)

Lemma systemFields_NoDup (p : string) (e : bool) (f : TypeFlags) :
  NoDup (systemFields p ".keyword" e f) /\ NoDup (systemFields p "" e f).
Proof.
  unfold systemFields.
  destruct e, (hasIdentifierType f || hasCodingType f),
    (hasCodeableConceptType f);
    simpl; split; apply NoDup_ListNoDup;
    repeat (constructor; [simpl; intuition idtac; different_names|]);
    constructor.
Qed.

Lemma codeFields_NoDup (p : string) (e : bool) (f : TypeFlags) :
  NoDup (codeFields p ".keyword" true e f)
  /\ NoDup (codeFields p "" false e f).
Proof.
  unfold codeFields.
  destruct e, (hasCodingType f), (hasCodeableConceptType f),
    (hasIdentifierType f || hasContactPointType f),
    (hasCodeType f || hasStringType f || hasBooleanType f || hasIdType f),
    (hasBooleanType f);
    simpl; split; apply NoDup_ListNoDup;
    repeat (constructor; [simpl; intuition idtac; different_names|]);
    constructor.
Qed.

Lemma systemFields_length (p suffix : string) (e : bool) (f : TypeFlags) :
  length (systemFields p suffix e f) <= 2.
Proof.
  unfold systemFields.
  destruct e, (hasIdentifierType f || hasCodingType f),
    (hasCodeableConceptType f); simpl; lia.
Qed.

Lemma codeFields_length (p suffix : string) (u e : bool) (f : TypeFlags) :
  length (codeFields p suffix u e f) <= 5.
Proof.
  unfold codeFields.
  destruct e, u, (hasCodingType f), (hasCodeableConceptType f),
    (hasIdentifierType f || hasContactPointType f),
    (hasCodeType f || hasStringType f || hasBooleanType f || hasIdType f),
    (hasBooleanType f); simpl; lia.
Qed.

(** X7. A [multi_match] clause never names a field twice: the system
    fields and the code fields selected for a parameter are duplicate-free,
    and there are at most two system fields and at most five code fields. *)
Theorem selections_without_duplicates (realm : Realm) (tm : TypeMap)
    (compiled : CompiledSearchParam) (useKeywordSubFields : bool) :
  NoDup (systemFieldsFor realm tm compiled useKeywordSubFields)
  /\ NoDup (codeFieldsFor realm tm compiled useKeywordSubFields)
  /\ length (systemFieldsFor realm tm compiled useKeywordSubFields) <= 2
  /\ length (codeFieldsFor realm tm compiled useKeywordSubFields) <= 5.
Proof.
  unfold systemFieldsFor, codeFieldsFor.
  split; [|split; [|split]].
  - destruct (suffix_cases useKeywordSubFields compiled) as [[_ ->]|[_ ->]];
      apply systemFields_NoDup.
  - destruct (suffix_cases useKeywordSubFields compiled) as [[-> ->]|[-> ->]];
      apply codeFields_NoDup.
  - apply systemFields_length.
  - apply codeFields_length.
Qed.

(** ** Shape of a composite *)

(** X8. A returned [bool.must] composite holds one clause per producer
    that applies, so at most three and never exactly one, and none of its
    clauses is itself a composite. *)
Theorem composite_is_flat (realm : Realm) (tm : TypeMap)
    (compiled : CompiledSearchParam)
    (value : TokenSearchValue) (useKeywordSubFields : bool)
    (modifier : option string) (must : list Query) :
  tokenQuery realm tm compiled value useKeywordSubFields modifier
  = Return (BoolMust must) ->
  length must = applicable value
  /\ length must <> 1
  /\ length must <= 3
  /\ Forall (fun clause => isComposite clause = false) must.
Proof.
  intros Hret.
  destruct (tokenQuery_Return _ _ _ _ _ _ _ Hret) as [Hcheck Hlookup].
  rewrite (tokenQuery_accepted _ _ _ _ _ _ Hcheck Hlookup), queries_eq in Hret.
  unfold applicable.
  destruct (system value), (code value),
    (truthyFlag (explicitNoSystemProperty value));
    simpl in Hret; try discriminate Hret; injection Hret as <-; simpl;
    repeat split; try lia; repeat constructor.
Qed.

Lemma composite_is_flat_witness :
  length
    [MultiMatch ["identifier.system.keyword"] "http://sys" true;
     MultiMatch ["identifier.value.keyword"] "123" true]
  = applicable {| system := Some "http://sys"; code := Some "123";
                  explicitNoSystemProperty := None |}
  /\ length
       [MultiMatch ["identifier.system.keyword"] "http://sys" true;
        MultiMatch ["identifier.value.keyword"] "123" true] <> 1
  /\ length
       [MultiMatch ["identifier.system.keyword"] "http://sys" true;
        MultiMatch ["identifier.value.keyword"] "123" true] <= 3
  /\ Forall (fun clause => isComposite clause = false)
       [MultiMatch ["identifier.system.keyword"] "http://sys" true;
        MultiMatch ["identifier.value.keyword"] "123" true].
Proof.
  apply (composite_is_flat es2015
           {[ "Patient" := {[ "identifier" := [tagged "Identifier"] ]} ]}
           {| resourceType := "Patient"; path := "identifier" |}
           {| system := Some "http://sys"; code := Some "123";
              explicitNoSystemProperty := None |}
           true None).
  vm_compute. reflexivity.
Defined.

(** X9. Every [multi_match] clause of a result is lenient and carries,
    unchanged, the [system] or the [code] of the search value as its query
    text. *)
Theorem query_text_unchanged (realm : Realm) (tm : TypeMap)
    (compiled : CompiledSearchParam)
    (value : TokenSearchValue) (useKeywordSubFields : bool)
    (modifier : option string)
    (q : Query) (fields : list string) (query : string) (lenient : bool) :
  tokenQuery realm tm compiled value useKeywordSubFields modifier = Return q ->
  In (MultiMatch fields query lenient) (subqueries q) ->
  lenient = true /\ (system value = Some query \/ code value = Some query).
Proof.
  intros Hret Hin.
  destruct (tokenQuery_Return _ _ _ _ _ _ _ Hret) as [Hcheck Hlookup].
  rewrite (tokenQuery_accepted _ _ _ _ _ _ Hcheck Hlookup) in Hret.
  injection Hret as <-.
  apply subqueries_composed in Hin as [Hin|Hin]; [discriminate|].
  rewrite queries_eq, !flat_map_app, !in_app_iff in Hin.
  destruct Hin as [Hin|[Hin|Hin]].
  - destruct (system value); simpl in Hin; [|contradiction].
    destruct Hin as [Heq|[]]. injection Heq as _ <- <-. auto.
  - destruct (code value); simpl in Hin; [|contradiction].
    destruct Hin as [Heq|[]]. injection Heq as _ <- <-. auto.
  - destruct (truthyFlag (explicitNoSystemProperty value)); simpl in Hin;
      [|contradiction].
    destruct Hin as [Heq|[]]. discriminate.
Qed.

Lemma query_text_unchanged_witness :
  true = true
  /\ (system {| system := Some "http://sys"; code := Some "123";
                explicitNoSystemProperty := None |} = Some "123"
      \/ code {| system := Some "http://sys"; code := Some "123";
                 explicitNoSystemProperty := None |} = Some "123").
Proof.
  apply (query_text_unchanged es2015
           {[ "Patient" := {[ "identifier" := [tagged "Identifier"] ]} ]}
           {| resourceType := "Patient"; path := "identifier" |}
           {| system := Some "http://sys"; code := Some "123";
              explicitNoSystemProperty := None |}
           true None
           (BoolMust
              [MultiMatch ["identifier.system.keyword"] "http://sys" true;
               MultiMatch ["identifier.value.keyword"] "123" true])
           ["identifier.value.keyword"] "123" true).
  - vm_compute. reflexivity.
  - simpl. auto.
Defined.

(** ** The selection table of a known entry *)

(** Settles, the flags being known, whether a name is among the selected
    names. *)
Ltac settle_membership :=
  simpl; split; intros;
  first [ reflexivity | discriminate | tauto
        | intuition idtac; first [discriminate | different_names] ].

Lemma systemFields_table (p suffix : string) (f : TypeFlags) :
  suffix = ".keyword" \/ suffix = "" ->
  (In (p +:+ ".system" +:+ suffix) (systemFields p suffix true f)
   <-> hasIdentifierType f || hasCodingType f
       || negb (hasCodeableConceptType f) = true)
  /\ (In (p +:+ ".coding.system" +:+ suffix) (systemFields p suffix true f)
      <-> hasCodeableConceptType f
          || negb (hasIdentifierType f || hasCodingType f) = true).
Proof.
  intros [-> | ->]; unfold systemFields;
    destruct (hasIdentifierType f), (hasCodingType f),
      (hasCodeableConceptType f);
    split; settle_membership.
Qed.

Lemma noneSet_groups (f : TypeFlags) :
  noneSet f
  = negb (hasCodingType f || hasCodeableConceptType f
          || (hasIdentifierType f || hasContactPointType f)
          || (hasCodeType f || hasStringType f || hasBooleanType f
              || hasIdType f)).
Proof. destruct f as [[] [] [] [] [] [] [] []]; reflexivity. Qed.

Lemma codeFields_table (p suffix : string) (u : bool) (f : TypeFlags) :
  (u = true /\ suffix = ".keyword") \/ (u = false /\ suffix = "") ->
  (In (p +:+ ".code" +:+ suffix) (codeFields p suffix u true f)
   <-> hasCodingType f || noneSet f = true)
  /\ (In (p +:+ ".coding.code" +:+ suffix) (codeFields p suffix u true f)
      <-> hasCodeableConceptType f || noneSet f = true)
  /\ (In (p +:+ ".value" +:+ suffix) (codeFields p suffix u true f)
      <-> hasIdentifierType f || hasContactPointType f || noneSet f = true)
  /\ (In (p +:+ suffix) (codeFields p suffix u true f)
      <-> hasCodeType f || hasStringType f || hasBooleanType f
          || hasIdType f || noneSet f = true)
  /\ (In p (codeFields p ".keyword" true true f)
      <-> hasBooleanType f = true).
Proof.
  intros Hsuffix. rewrite noneSet_groups. unfold codeFields.
  destruct (hasBooleanType f).
  - rewrite !orb_true_r, !orb_true_l.
    destruct Hsuffix as [[-> ->] | [-> ->]];
      destruct (hasCodingType f), (hasCodeableConceptType f),
        (hasIdentifierType f || hasContactPointType f);
      (split; [|split; [|split; [|split]]]); settle_membership.
  - rewrite !orb_false_r.
    destruct Hsuffix as [[-> ->] | [-> ->]];
      destruct (hasCodingType f), (hasCodeableConceptType f),
        (hasIdentifierType f || hasContactPointType f),
        (hasCodeType f || hasStringType f), (hasIdType f);
      (split; [|split; [|split; [|split]]]); settle_membership.
Qed.

Lemma hasTag_not_In (l : list DataType.t) (tag : string) :
  hasTag l tag = false <-> ~ In tag (map DataType.code l).
Proof. rewrite <- hasTag_In. symmetry. apply not_true_iff_false. Qed.

Lemma noneSet_entry (l : list DataType.t) :
  noneSet (typeFlags l) = true
  <-> forall tag, In tag recognisedTags -> ~ In tag (map DataType.code l).
Proof.
  rewrite typeFlags_tags. unfold noneSet, flagsOfTags, recognisedTags. simpl.
  rewrite negb_true_iff, !orb_false_iff, !hasTag_not_In. split.
  - intros Hnone tag Htag.
    repeat (destruct Htag as [<-|Htag]; [tauto|]). destruct Htag.
  - intros Hnone. repeat split; apply Hnone; auto 10.
Qed.

(** X10. The system fields of a parameter with a table entry:
    [<path>.system<suffix>] is selected exactly when the entry contains
    [Identifier] or [Coding], or does not contain [CodeableConcept];
    [<path>.coding.system<suffix>] exactly when it contains
    [CodeableConcept], or contains neither [Identifier] nor [Coding]. *)
Theorem system_selection_table (realm : Realm) (tm : TypeMap)
    (compiled : CompiledSearchParam)
    (useKeywordSubFields : bool) (l : list DataType.t) :
  typeEntry tm compiled = Some l ->
  let has := fun tag => In tag (map DataType.code l) in
  let p := path compiled in
  let suffix := keywordSuffix useKeywordSubFields compiled in
  let fields := systemFieldsFor realm tm compiled useKeywordSubFields in
  (In (p +:+ ".system" +:+ suffix) fields
   <-> has "Identifier" \/ has "Coding" \/ ~ has "CodeableConcept")
  /\ (In (p +:+ ".coding.system" +:+ suffix) fields
      <-> has "CodeableConcept" \/ ~ (has "Identifier" \/ has "Coding")).
Proof.
  intros Hentry has p suffix fields. subst fields. unfold systemFieldsFor.
  rewrite (dataTypeExists_entry _ _ _ _ Hentry),
    (dataTypes_entry _ _ _ _ Hentry).
  fold p suffix.
  assert (Hsuffix : suffix = ".keyword" \/ suffix = "")
    by (subst suffix; unfold keywordSuffix;
        destruct (useKeywordSuffix _ _); auto).
  destruct (systemFields_table p suffix (typeFlags l) Hsuffix) as [H1 H2].
  rewrite H1, H2, typeFlags_tags. simpl.
  rewrite !orb_true_iff, !negb_true_iff, orb_false_iff,
    !hasTag_not_In, !hasTag_In.
  subst has. simpl. tauto.
Qed.

Lemma system_selection_table_witness :
  (In ("identifier" +:+ ".system"
         +:+ keywordSuffix true
               {| resourceType := "Patient"; path := "identifier" |})
      (systemFieldsFor
         es2015 {[ "Patient" := {[ "identifier" := [tagged "Identifier"] ]} ]}
         {| resourceType := "Patient"; path := "identifier" |} true)
   <-> In "Identifier" (map DataType.code [tagged "Identifier"])
       \/ In "Coding" (map DataType.code [tagged "Identifier"])
       \/ ~ In "CodeableConcept" (map DataType.code [tagged "Identifier"]))
  /\ (In ("identifier" +:+ ".coding.system"
            +:+ keywordSuffix true
                  {| resourceType := "Patient"; path := "identifier" |})
        (systemFieldsFor
           es2015 {[ "Patient" := {[ "identifier" := [tagged "Identifier"] ]} ]}
           {| resourceType := "Patient"; path := "identifier" |} true)
      <-> In "CodeableConcept" (map DataType.code [tagged "Identifier"])
          \/ ~ (In "Identifier" (map DataType.code [tagged "Identifier"])
                \/ In "Coding" (map DataType.code [tagged "Identifier"]))).
Proof.
  apply (system_selection_table es2015
           {[ "Patient" := {[ "identifier" := [tagged "Identifier"] ]} ]}
           {| resourceType := "Patient"; path := "identifier" |}
           true [tagged "Identifier"]).
  vm_compute. reflexivity.
Defined.

(** X11. The code fields of a parameter with a table entry, where "none"
    says that the entry contains none of the eight recognised codes:
    [<path>.code<suffix>] is selected exactly for [Coding] or none;
    [<path>.coding.code<suffix>] for [CodeableConcept] or none;
    [<path>.value<suffix>] for [Identifier], [ContactPoint] or none;
    [<path><suffix>] for [code], [string], [boolean], [id] or none; and,
    with the keyword suffix in use, the bare path exactly for [boolean]. *)
Theorem code_selection_table (realm : Realm) (tm : TypeMap)
    (compiled : CompiledSearchParam)
    (useKeywordSubFields : bool) (l : list DataType.t) :
  typeEntry tm compiled = Some l ->
  let has := fun tag => In tag (map DataType.code l) in
  let none := forall tag, In tag recognisedTags -> ~ has tag in
  let p := path compiled in
  let suffix := keywordSuffix useKeywordSubFields compiled in
  let fields := codeFieldsFor realm tm compiled useKeywordSubFields in
  (In (p +:+ ".code" +:+ suffix) fields <-> has "Coding" \/ none)
  /\ (In (p +:+ ".coding.code" +:+ suffix) fields
      <-> has "CodeableConcept" \/ none)
  /\ (In (p +:+ ".value" +:+ suffix) fields
      <-> has "Identifier" \/ has "ContactPoint" \/ none)
  /\ (In (p +:+ suffix) fields
      <-> has "code" \/ has "string" \/ has "boolean" \/ has "id" \/ none)
  /\ (useKeywordSuffix useKeywordSubFields compiled = true ->
      (In p fields <-> has "boolean")).
Proof.
  intros Hentry has none p suffix fields. subst fields. unfold codeFieldsFor.
  rewrite (dataTypeExists_entry _ _ _ _ Hentry),
    (dataTypes_entry _ _ _ _ Hentry).
  fold p suffix.
  assert (Hnone : noneSet (typeFlags l) = true <-> none)
    by apply noneSet_entry.
  assert (Hsuffix :
            (useKeywordSuffix useKeywordSubFields compiled = true
             /\ suffix = ".keyword")
            \/ (useKeywordSuffix useKeywordSubFields compiled = false
                /\ suffix = "")) by apply suffix_cases.
  destruct (codeFields_table p suffix _ (typeFlags l) Hsuffix)
    as (H1 & H2 & H3 & H4 & H5).
  split; [|split; [|split; [|split]]].
  - rewrite H1, orb_true_iff, Hnone, typeFlags_tags. simpl.
    rewrite hasTag_In. reflexivity.
  - rewrite H2, orb_true_iff, Hnone, typeFlags_tags. simpl.
    rewrite hasTag_In. reflexivity.
  - rewrite H3, !orb_true_iff, Hnone, typeFlags_tags. simpl.
    rewrite !hasTag_In. subst has. simpl. tauto.
  - rewrite H4, !orb_true_iff, Hnone, typeFlags_tags. simpl.
    rewrite !hasTag_In. subst has. simpl. tauto.
  - intros Hin. destruct Hsuffix as [[_ Hkeyword]|[Hout _]]; [|congruence].
    rewrite Hin, Hkeyword, H5, typeFlags_tags. simpl. apply hasTag_In.
Qed.

Lemma code_selection_table_witness :
  (In ("active" +:+ ".code"
         +:+ keywordSuffix true
               {| resourceType := "Patient"; path := "active" |})
      (codeFieldsFor es2015
          {[ "Patient" := {[ "active" := [tagged "boolean"] ]} ]}
         {| resourceType := "Patient"; path := "active" |} true)
   <-> In "Coding" (map DataType.code [tagged "boolean"])
       \/ (forall tag, In tag recognisedTags ->
             ~ In tag (map DataType.code [tagged "boolean"])))
  /\ (In ("active" +:+ ".coding.code"
            +:+ keywordSuffix true
                  {| resourceType := "Patient"; path := "active" |})
        (codeFieldsFor es2015
            {[ "Patient" := {[ "active" := [tagged "boolean"] ]} ]}
           {| resourceType := "Patient"; path := "active" |} true)
      <-> In "CodeableConcept" (map DataType.code [tagged "boolean"])
          \/ (forall tag, In tag recognisedTags ->
                ~ In tag (map DataType.code [tagged "boolean"])))
  /\ (In ("active" +:+ ".value"
            +:+ keywordSuffix true
                  {| resourceType := "Patient"; path := "active" |})
        (codeFieldsFor es2015
            {[ "Patient" := {[ "active" := [tagged "boolean"] ]} ]}
           {| resourceType := "Patient"; path := "active" |} true)
      <-> In "Identifier" (map DataType.code [tagged "boolean"])
          \/ In "ContactPoint" (map DataType.code [tagged "boolean"])
          \/ (forall tag, In tag recognisedTags ->
                ~ In tag (map DataType.code [tagged "boolean"])))
  /\ (In ("active"
            +:+ keywordSuffix true
                  {| resourceType := "Patient"; path := "active" |})
        (codeFieldsFor es2015
            {[ "Patient" := {[ "active" := [tagged "boolean"] ]} ]}
           {| resourceType := "Patient"; path := "active" |} true)
      <-> In "code" (map DataType.code [tagged "boolean"])
          \/ In "string" (map DataType.code [tagged "boolean"])
          \/ In "boolean" (map DataType.code [tagged "boolean"])
          \/ In "id" (map DataType.code [tagged "boolean"])
          \/ (forall tag, In tag recognisedTags ->
                ~ In tag (map DataType.code [tagged "boolean"])))
  /\ (useKeywordSuffix true
        {| resourceType := "Patient"; path := "active" |} = true ->
      (In "active"
         (codeFieldsFor
            es2015 {[ "Patient" := {[ "active" := [tagged "boolean"] ]} ]}
            {| resourceType := "Patient"; path := "active" |} true)
       <-> In "boolean" (map DataType.code [tagged "boolean"]))).
Proof.
  apply (code_selection_table es2015
           {[ "Patient" := {[ "active" := [tagged "boolean"] ]} ]}
           {| resourceType := "Patient"; path := "active" |}
           true [tagged "boolean"]).
  vm_compute. reflexivity.
Defined.

(** ** Nothing asked for is dropped *)

(** X12. A returned fragment contains a clause for every producer that
    applies: the [multi_match] on the system fields for a defined [system]
    (the empty string included), the [multi_match] on the code fields for a
    defined [code], and the [must_not exists] on [<path>.system] for a
    truthy [explicitNoSystemProperty]. *)
Theorem applicable_clauses_present (realm : Realm) (tm : TypeMap)
    (compiled : CompiledSearchParam) (value : TokenSearchValue)
    (useKeywordSubFields : bool) (modifier : option string) (q : Query) :
  tokenQuery realm tm compiled value useKeywordSubFields modifier = Return q ->
  (forall s, system value = Some s ->
     In (MultiMatch (systemFieldsFor realm tm compiled useKeywordSubFields)
           s true)
       (subqueries q))
  /\ (forall c, code value = Some c ->
        In (MultiMatch (codeFieldsFor realm tm compiled useKeywordSubFields)
              c true)
          (subqueries q))
  /\ (truthyFlag (explicitNoSystemProperty value) = true ->
      In (BoolMustNotExists (path compiled +:+ ".system")) (subqueries q)).
Proof.
  intros Hret.
  destruct (tokenQuery_Return _ _ _ _ _ _ _ Hret) as [Hcheck Hlookup].
  rewrite (tokenQuery_accepted _ _ _ _ _ _ Hcheck Hlookup), queries_eq in Hret.
  injection Hret as <-.
  unfold systemClause, codeClause, absenceClause.
  destruct (system value), (code value),
    (truthyFlag (explicitNoSystemProperty value));
    simpl; repeat split; intros; simplify_eq; auto 6.
Qed.

Lemma applicable_clauses_present_witness :
  (forall s, Some "" = Some s ->
     In (MultiMatch
           (systemFieldsFor es2015
               ∅ {| resourceType := "X"; path := "foo" |} false)
           s true)
       (subqueries
          (BoolMust
             [MultiMatch ["foo.system"; "foo.coding.system"] "" true;
              BoolMustNotExists "foo.system"])))
  /\ (forall c, None = Some c ->
        In (MultiMatch
              (codeFieldsFor es2015
                  ∅ {| resourceType := "X"; path := "foo" |} false)
              c true)
          (subqueries
             (BoolMust
                [MultiMatch ["foo.system"; "foo.coding.system"] "" true;
                 BoolMustNotExists "foo.system"])))
  /\ (truthyFlag (Some true) = true ->
      In (BoolMustNotExists ("foo" +:+ ".system"))
        (subqueries
           (BoolMust
              [MultiMatch ["foo.system"; "foo.coding.system"] "" true;
               BoolMustNotExists "foo.system"]))).
Proof.
  apply (applicable_clauses_present es2015 ∅
           {| resourceType := "X"; path := "foo" |}
           {| system := Some ""; code := None;
              explicitNoSystemProperty := Some true |}
           false None).
  vm_compute. reflexivity.
Defined.
